(** * Access control of the tourism platform API (server.js)

    A shallow embedding of the authentication and authorisation code of
    [server.js]: the [verifyToken] middleware, the three login handlers,
    the tourist registration handler and the ownership test of
    [PUT /api/negocios/:id], with the properties the specification states
    about them.

    Conventions.  Text is a Rocq [string] holding the UTF-8 bytes of the
    JavaScript string.  A JavaScript number is a binary64 value, written as
    a [spec_float] of the standard library with precision 53 and maximal
    exponent 1024.  An [async] function body is a computation that threads
    the connection pool and either returns or throws. *)

From Stdlib Require Import String Ascii List Bool ZArith Lia.
From Stdlib Require Import Decimal DecimalFacts DecimalString DecimalPos.
From Stdlib Require Import SpecFloat.
Import ListNotations.

Local Open Scope string_scope.
Local Open Scope Z_scope.

(* ===================================================================== *)
(** * JavaScript values *)
(* ===================================================================== *)

Module Js.

(** ** Numbers *)

Definition prec : Z := 53.
Definition emax : Z := 1024.

Definition Number : Type := spec_float.

Definition NaN : Number := S754_nan.
Definition pos_zero : Number := S754_zero false.

(** The number an integer column value or an integer literal denotes: the
    integer rounded to the nearest binary64 value, ties to even. *)
Definition of_Z (z : Z) : Number := binary_normalize prec emax z 0 false.

(** [Number::equal]: NaN differs from everything, the two zeros are equal. *)
Definition number_equal (x y : Number) : bool := SFeqb x y.

(** The number for the decimal value [m * 10^k] with sign [neg]. *)
Definition of_decimal (neg : bool) (m : N) (k : Z) : Number :=
  match m with
  | N0 => S754_zero neg
  | Npos p =>
      match k with
      | Zneg q =>
          SFdiv prec emax (S754_finite neg p 0)
                (S754_finite false (Pos.pow 10 q) 0)
      | _ => binary_normalize prec emax
               (cond_Zopp neg (Zpos p * 10 ^ k)) 0 false
      end
  end.

(** The decimal text of an integer, as a client writes an id in a path. *)
Definition decimal_string (z : Z) : string :=
  NilZero.string_of_int (Z.to_int z).

(** Integers every binary64 value represents exactly. *)
Definition safe_integer (z : Z) : Prop := Z.abs z < 2 ^ 53.

(** The mantissa and exponent of a positive integer of at most 53 bits. *)
Definition normal_form (p : positive) : positive * Z :=
  shl_align p 0 (Zpos (digits2_pos p) - 53).

(** ** Values

    An object is the list of its own properties, each name once.  Arrays
    are left out: the only arrays of the access-control code are the lists
    of roles and the rows of a result set, which are Rocq lists. *)

#[local] Unset Elimination Schemes.
Inductive Value : Type :=
| VUndefined
| VNull
| VBool (b : bool)
| VNum (x : Number)
| VStr (s : string)
| VObj (fields : list (string * Value)).
#[local] Set Elimination Schemes.

(** Errors a computation can throw. *)
Inductive Error : Type :=
| TypeError (message : string)
| JsonWebTokenError (message : string)
| TokenExpiredError (message : string)
| NotBeforeError (message : string)
| DriverError (code : string).

Inductive Result (A : Type) : Type :=
| Ok (a : A)
| Throw (e : Error).
Arguments Ok {A} a.
Arguments Throw {A} e.

(** ** Objects *)

Fixpoint own_property (fields : list (string * Value)) (k : string)
  : option Value :=
  match fields with
  | [] => None
  | (k', v) :: rest => if String.eqb k' k then Some v else own_property rest k
  end.

(** [v.k] for the property names the server reads ([tipo], [negocio_id]):
    neither is a member of [Object.prototype], [String.prototype],
    [Number.prototype] or [Boolean.prototype], so on an object without
    that own property, and on a primitive, the read gives [undefined];
    on [null] and [undefined] it throws. *)
Definition get_property (v : Value) (k : string) : Result Value :=
  match v with
  | VObj fields =>
      match own_property fields k with
      | Some x => Ok x
      | None => Ok VUndefined
      end
  | VUndefined | VNull =>
      Throw (TypeError "Cannot read properties of undefined")
  | _ => Ok VUndefined
  end.

(** [x === s] for a string literal [s]. *)
Definition strict_equal_string (x : Value) (s : string) : bool :=
  match x with
  | VStr t => String.eqb t s
  | _ => false
  end.

(** [roles.includes(x)] on an array of strings (SameValueZero). *)
Definition includes (roles : list string) (x : Value) : bool :=
  existsb (strict_equal_string x) roles.

(** ** StringToNumber

    The grammar of [StringNumericLiteral]: optional white space, then
    nothing (the value is +0), a signed decimal literal, [Infinity], or an
    unsigned literal in radix 16, 8 or 2, then optional white space.
    Anything else is NaN. *)

Definition code (c : ascii) : N := N_of_ascii c.

Definition ws1 (c : ascii) : bool :=
  let n := code c in
  ((9 <=? n) && (n <=? 13) || (n =? 32))%N.

(** U+00A0 *)
Definition ws2 (c1 c2 : ascii) : bool :=
  ((code c1 =? 194) && (code c2 =? 160))%N.

(** U+1680, U+2000..U+200A, U+2028, U+2029, U+202F, U+205F, U+3000,
    U+FEFF *)
Definition ws3 (c1 c2 c3 : ascii) : bool :=
  let n1 := code c1 in
  let n2 := code c2 in
  let n3 := code c3 in
  ((n1 =? 225) && (n2 =? 154) && (n3 =? 128)
   || (n1 =? 226) && (n2 =? 128)
      && ((128 <=? n3) && (n3 <=? 138) || (n3 =? 168) || (n3 =? 169)
          || (n3 =? 175))
   || (n1 =? 226) && (n2 =? 129) && (n3 =? 159)
   || (n1 =? 227) && (n2 =? 128) && (n3 =? 128)
   || (n1 =? 239) && (n2 =? 187) && (n3 =? 191))%N.

Fixpoint skip_ws (s : string) : string :=
  match s with
  | String c1 r1 =>
      if ws1 c1 then skip_ws r1
      else
        match r1 with
        | String c2 r2 =>
            if ws2 c1 c2 then skip_ws r2
            else
              match r2 with
              | String c3 r3 => if ws3 c1 c2 c3 then skip_ws r3 else s
              | EmptyString => s
              end
        | EmptyString => s
        end
  | EmptyString => s
  end.

Definition all_ws (s : string) : bool := String.eqb (skip_ws s) "".

Definition decimal_digit (c : ascii) : option (uint -> uint) :=
  match c with
  | "0"%char => Some D0 | "1"%char => Some D1 | "2"%char => Some D2
  | "3"%char => Some D3 | "4"%char => Some D4 | "5"%char => Some D5
  | "6"%char => Some D6 | "7"%char => Some D7 | "8"%char => Some D8
  | "9"%char => Some D9
  | _ => None
  end.

(** The longest prefix of decimal digits, and what follows it. *)
Fixpoint take_digits (s : string) : uint * string :=
  match s with
  | String c r =>
      match decimal_digit c with
      | Some d => let (ds, rest) := take_digits r in (d ds, rest)
      | None => (Nil, s)
      end
  | EmptyString => (Nil, s)
  end.

Definition is_nil (d : uint) : bool :=
  match d with Nil => true | _ => false end.

(** [ExponentPart]: consumed only when a digit follows the indicator. *)
Definition exponent_part (s : string) : Z * string :=
  match s with
  | String c r =>
      if (Ascii.eqb c "e" || Ascii.eqb c "E")%bool then
        let '(neg, r') :=
          match r with
          | String "+" t => (false, t)
          | String "-" t => (true, t)
          | _ => (false, r)
          end in
        let (ds, rest) := take_digits r' in
        if is_nil ds then (0, s)
        else (cond_Zopp neg (Z.of_N (N.of_uint ds)), rest)
      else (0, s)
  | EmptyString => (0, s)
  end.

(** [StrUnsignedDecimalLiteral] without [Infinity]: mantissa, decimal
    exponent, rest. *)
Definition unsigned_decimal (s : string) : option (N * Z * string) :=
  let (int_part, r1) := take_digits s in
  let '(frac_part, r2) :=
    match r1 with
    | String "." r => take_digits r
    | _ => (Nil, r1)
    end in
  if (is_nil int_part && is_nil frac_part)%bool then None
  else
    let (e, r3) := exponent_part r2 in
    Some (N.of_uint (Decimal.app int_part frac_part),
          e - Z.of_nat (Decimal.nb_digits frac_part), r3).

Fixpoint strip_prefix (p s : string) : option string :=
  match p with
  | EmptyString => Some s
  | String a p' =>
      match s with
      | String b s' => if Ascii.eqb a b then strip_prefix p' s' else None
      | EmptyString => None
      end
  end.

Definition decimal_literal (s : string) : option (Number * string) :=
  let '(neg, r) :=
    match s with
    | String "+" t => (false, t)
    | String "-" t => (true, t)
    | _ => (false, s)
    end in
  match strip_prefix "Infinity" r with
  | Some rest => Some (S754_infinity neg, rest)
  | None =>
      match unsigned_decimal r with
      | Some (m, k, rest) => Some (of_decimal neg m k, rest)
      | None => None
      end
  end.

Definition radix_digit (c : ascii) : option N :=
  let n := code c in
  (if (48 <=? n) && (n <=? 57) then Some (n - 48)
   else if (97 <=? n) && (n <=? 102) then Some (n - 87)
   else if (65 <=? n) && (n <=? 70) then Some (n - 55)
   else None)%N.

(** Digits of radix [b], most significant first, folded into [acc];
    [seen] records that at least one digit was read. *)
Fixpoint radix_digits (b : N) (acc : N) (seen : bool) (s : string)
  : option N * string :=
  match s with
  | String c r =>
      match radix_digit c with
      | Some d =>
          if (d <? b)%N then radix_digits b (acc * b + d)%N true r
          else (if seen then Some acc else None, s)
      | None => (if seen then Some acc else None, s)
      end
  | EmptyString => (if seen then Some acc else None, s)
  end.

Definition radix_of (c : ascii) : option N :=
  match c with
  | "x"%char | "X"%char => Some 16%N
  | "o"%char | "O"%char => Some 8%N
  | "b"%char | "B"%char => Some 2%N
  | _ => None
  end.

(** [NonDecimalIntegerLiteral] *)
Definition radix_literal (s : string) : option (Number * string) :=
  match s with
  | String "0" (String x r) =>
      match radix_of x with
      | Some b =>
          match radix_digits b 0%N false r with
          | (Some n, rest) => Some (of_Z (Z.of_N n), rest)
          | (None, _) => None
          end
      | None => None
      end
  | _ => None
  end.

Definition StringToNumber (s : string) : Number :=
  let t := skip_ws s in
  if String.eqb t "" then pos_zero
  else
    let lit :=
      match radix_literal t with
      | Some r => Some r
      | None => decimal_literal t
      end in
    match lit with
    | Some (x, rest) => if all_ws rest then x else NaN
    | None => NaN
    end.

(** ** Loose equality against a string

    [x == s] where [s] is a string: a number is compared with
    [StringToNumber s], a boolean is first turned into 0 or 1, a string is
    compared as text, [null] and [undefined] equal no string, and an object
    is first converted to a primitive, which for an object read from JSON
    is the text of [Object.prototype.toString] unless an own property
    shadows [toString], in which case the conversion throws. *)
Definition loosely_equal_string (x : Value) (s : string) : Result bool :=
  match x with
  | VUndefined | VNull => Ok false
  | VBool b => Ok (number_equal (of_Z (if b then 1 else 0)) (StringToNumber s))
  | VNum n => Ok (number_equal n (StringToNumber s))
  | VStr t => Ok (String.eqb t s)
  | VObj fields =>
      match own_property fields "toString" with
      | Some _ => Throw (TypeError "Cannot convert object to primitive value")
      | None => Ok (String.eqb "[object Object]" s)
      end
  end.

(** ** [s.split(' ')[1]] *)

(** [s.split(' ')]: a new piece starts after every space, so a string with
    n spaces gives n + 1 pieces, some of them possibly empty. *)
Fixpoint split_space (s : string) : list string :=
  match s with
  | EmptyString => [EmptyString]
  | String c r =>
      if Ascii.eqb c " " then EmptyString :: split_space r
      else
        match split_space r with
        | piece :: pieces => String c piece :: pieces
        | [] => [String c EmptyString]
        end
  end.

Fixpoint has_space (s : string) : bool :=
  match s with
  | EmptyString => false
  | String c r => (Ascii.eqb c " " || has_space r)%bool
  end.

(** The text before the first space, or the whole text. *)
Definition first_piece (s : string) : string := hd EmptyString (split_space s).

(** The reading of the token as everything that follows the first space of
    the header value; [None] when the value has no space. *)
Fixpoint after_first_space (s : string) : option string :=
  match s with
  | EmptyString => None
  | String c r => if Ascii.eqb c " " then Some r else after_first_space r
  end.

(** [a[i]] on an array of strings, [undefined] written [None]. *)
Definition index (a : list string) (i : nat) : option string := nth_error a i.

(** [!t] for [t] a string or [undefined]. *)
Definition falsy_text (t : option string) : bool :=
  match t with
  | None => true
  | Some s => String.eqb s ""
  end.

End Js.

Import Js.

(* ===================================================================== *)
(** * Computations of an async function body *)
(* ===================================================================== *)

(** A computation over a state [S]: it returns or throws, and in both
    cases leaves a state behind (an assignment made before a throw stays
    made). *)
Definition M (S A : Type) : Type := S -> S * Result A.

Definition ret {S A : Type} (a : A) : M S A := fun s => (s, Ok a).

Definition bind {S A B : Type} (m : M S A) (k : A -> M S B) : M S B :=
  fun s =>
    match m s with
    | (s', Ok a) => k a s'
    | (s', Throw e) => (s', Throw e)
    end.

(** [try { m } catch (error) { h error }] *)
Definition try_catch {S A : Type} (m : M S A) (h : Error -> M S A) : M S A :=
  fun s =>
    match m s with
    | (s', Ok a) => (s', Ok a)
    | (s', Throw e) => h e s'
    end.

Definition lift {S A : Type} (r : Result A) : M S A := fun s => (s, r).

Definition reads {S A : Type} (f : S -> A) : M S A := fun s => (s, Ok (f s)).

Definition modify {S : Type} (f : S -> S) : M S unit := fun s => (f s, Ok tt).

Declare Scope js_scope.
Delimit Scope js_scope with js.
Notation "x <- m ;; k" := (bind m (fun x => k))
  (at level 61, m at next level, right associativity) : js_scope.
Notation "m ;; k" := (bind m (fun _ => k))
  (at level 61, right associativity) : js_scope.
Local Open Scope js_scope.

(* ===================================================================== *)
(** * Requests and responses *)
(* ===================================================================== *)

Record Response : Type := {
  status : Z;
  body : Value
}.

(** [res.status(code).json({...})] *)
Definition json (code : Z) (fields : list (string * Value)) : Response :=
  {| status := code; body := VObj fields |}.

(** The parts of [req] the access-control code touches. *)
Record Request : Type := {
  authorization : option string;   (* req.headers.authorization *)
  params_id : string;              (* req.params.id *)
  user : Value                     (* req.user *)
}.

Definition set_user (decoded : Value) (req : Request) : Request :=
  {| authorization := authorization req;
     params_id := params_id req;
     user := decoded |}.

(** What a middleware does with a request: it answers, or it calls
    [next()]. *)
Inductive Flow : Type :=
| Respond (r : Response)
| Next.

(* ===================================================================== *)
(** * The database *)
(* ===================================================================== *)

Module Turista.
Record row : Type := {
  id : Z;
  nombre : string;
  apellido : string;
  email : string;
  password_hash : string;
  telefono : option string;
  pais_origen : option string;
  ciudad_origen : option string;
  estado : string;
  ultima_conexion : option Z
}.

Definition touch (now : Z) (r : row) : row :=
  {| id := id r; nombre := nombre r; apellido := apellido r;
     email := email r; password_hash := password_hash r;
     telefono := telefono r; pais_origen := pais_origen r;
     ciudad_origen := ciudad_origen r; estado := estado r;
     ultima_conexion := Some now |}.
End Turista.

Module Negocio.
Record row : Type := {
  id : Z;
  nombre : string
}.
End Negocio.

Module AdminNegocio.
Record row : Type := {
  id : Z;
  negocio_id : Z;
  nombre : string;
  apellido : string;
  email : string;
  password_hash : string;
  estado : string;
  permisos : Value;
  ultima_conexion : option Z
}.

Definition touch (now : Z) (r : row) : row :=
  {| id := id r; negocio_id := negocio_id r; nombre := nombre r;
     apellido := apellido r; email := email r;
     password_hash := password_hash r; estado := estado r;
     permisos := permisos r; ultima_conexion := Some now |}.
End AdminNegocio.

Module SuperAdmin.
Record row : Type := {
  id : Z;
  usuario : string;
  nombre : string;
  email : string;
  password_hash : string;
  nivel_acceso : Value;
  permisos : Value;
  estado : string;
  ultima_conexion : option Z
}.

Definition touch (now : Z) (r : row) : row :=
  {| id := id r; usuario := usuario r; nombre := nombre r;
     email := email r; password_hash := password_hash r;
     nivel_acceso := nivel_acceso r; permisos := permisos r;
     estado := estado r; ultima_conexion := Some now |}.
End SuperAdmin.

Record Database : Type := {
  turistas : list Turista.row;
  turistas_auto_increment : Z;
  negocios : list Negocio.row;
  administradores_negocios : list AdminNegocio.row;
  super_administradores : list SuperAdmin.row
}.

Definition with_turistas (rows : list Turista.row) (next_id : Z)
  (d : Database) : Database :=
  {| turistas := rows;
     turistas_auto_increment := next_id;
     negocios := negocios d;
     administradores_negocios := administradores_negocios d;
     super_administradores := super_administradores d |}.

Definition with_negocios (rows : list Negocio.row) (d : Database)
  : Database :=
  {| turistas := turistas d;
     turistas_auto_increment := turistas_auto_increment d;
     negocios := rows;
     administradores_negocios := administradores_negocios d;
     super_administradores := super_administradores d |}.

Definition with_administradores (rows : list AdminNegocio.row)
  (d : Database) : Database :=
  {| turistas := turistas d;
     turistas_auto_increment := turistas_auto_increment d;
     negocios := negocios d;
     administradores_negocios := rows;
     super_administradores := super_administradores d |}.

Definition with_super_administradores (rows : list SuperAdmin.row)
  (d : Database) : Database :=
  {| turistas := turistas d;
     turistas_auto_increment := turistas_auto_increment d;
     negocios := negocios d;
     administradores_negocios := administradores_negocios d;
     super_administradores := rows |}.

(** The connection pool: the database behind it, and for each coming
    statement whether the connection fails on it ([true] is a failure; past
    the end of the list nothing fails). *)
Record Pool : Type := {
  db : Database;
  faults : list bool
}.

(** [await pool.execute(sql, params)] for the statement [stmt]: a failing
    connection rejects without touching the data, otherwise the statement
    runs and may itself be rejected. *)
Definition execute {A : Type} (stmt : Database -> Result (Database * A))
  : M Pool A :=
  fun p =>
    match faults p with
    | true :: later =>
        ({| db := db p; faults := later |}, Throw (DriverError "ECONNREFUSED"))
    | _ =>
        match stmt (db p) with
        | Ok (d, a) => ({| db := d; faults := tl (faults p) |}, Ok a)
        | Throw e => ({| db := db p; faults := tl (faults p) |}, Throw e)
        end
    end.

(** Whether the connection fails on the next statement. *)
Definition fails_next (p : Pool) : bool := hd false (faults p).

(** The pool once a statement has been sent that left the data alone. *)
Definition spent (p : Pool) : Pool :=
  {| db := db p; faults := tl (faults p) |}.

(** A bind parameter taken from an optional field of the request body. *)
Inductive Bind : Type :=
| BUndefined
| BNull
| BText (s : string).

Definition column_of_bind (b : Bind) : option string :=
  match b with
  | BText s => Some s
  | _ => None
  end.

Definition is_undefined (b : Bind) : bool :=
  match b with
  | BUndefined => true
  | _ => false
  end.

(* ===================================================================== *)
(** * Collaborators outside the repository *)
(* ===================================================================== *)

(** The libraries and the configuration [server.js] is linked against.
    Nothing is assumed about them. *)
Class Environment : Type := {
  (** [process.env.JWT_SECRET] *)
  env_JWT_SECRET : option string;
  (** [jwt.sign(payload, secretOrPrivateKey, { expiresIn })] at a clock
      reading *)
  jwt_sign : Value -> string -> string -> Z -> string;
  (** [jwt.verify(token, secretOrPublicKey)] at a clock reading: the decoded
      payload, or a thrown error *)
  jwt_verify : string -> string -> Z -> Result Value;
  (** [bcrypt.hash(data, rounds)] with the salt it draws *)
  bcrypt_hash : string -> Z -> string -> string;
  (** [bcrypt.compare(data, encrypted)] *)
  bcrypt_compare : string -> string -> bool;
  (** equality of two texts under the collation of the text columns *)
  sql_text_eqb : string -> string -> bool;
  (** the UPDATE of [PUT /api/negocios/:id] with its bind parameters read
      from the request body, as the change it makes to the database *)
  update_negocios : Value -> string -> Database -> Result (Database * unit)
}.

(* ===================================================================== *)
(** * server.js *)
(* ===================================================================== *)

Section Server.

Context {E : Environment}.

(** [process.env.JWT_SECRET || 'tu_clave_secreta_muy_segura'] *)
Definition JWT_SECRET : string :=
  match env_JWT_SECRET with
  | Some s => if String.eqb s "" then "tu_clave_secreta_muy_segura" else s
  | None => "tu_clave_secreta_muy_segura"
  end.

Definition failure (code : Z) (message : string) : Response :=
  json code [("success", VBool false); ("message", VStr message)].

(** ** Middleware para verificar JWT *)

(** [req.headers.authorization?.split(' ')[1]] *)
Definition token_of (req : Request) : option string :=
  match authorization req with
  | Some header => index (split_space header) 1
  | None => None
  end.

Definition verifyToken (roles : list string) (now : Z) : M Request Flow :=
  token <- reads token_of ;;
  match token with
  | Some t =>
      if falsy_text token then
        ret (Respond (failure 401 "Token no proporcionado"))
      else
        try_catch
          (decoded <- lift (jwt_verify t JWT_SECRET now) ;;
           modify (set_user decoded) ;;
           denied <-
             (if (0 <? Z.of_nat (List.length roles))%Z then
                tipo <- lift (get_property decoded "tipo") ;;
                ret (negb (includes roles tipo))
              else ret false) ;;
           if denied : bool then ret (Respond (failure 403 "Acceso denegado"))
           else ret Next)
          (fun error => ret (Respond (failure 401 "Token inválido")))
  | None => ret (Respond (failure 401 "Token no proporcionado"))
  end.

(** ** Statements *)

(** SELECT ... FROM turistas WHERE email = ? *)
Definition select_turistas (email : string) (d : Database)
  : Result (Database * list Turista.row) :=
  Ok (d, filter (fun r => sql_text_eqb (Turista.email r) email) (turistas d)).

(** UPDATE turistas SET ultima_conexion = NOW() WHERE id = ? *)
Definition touch_turista (id now : Z) (d : Database)
  : Result (Database * unit) :=
  Ok (with_turistas
        (map (fun r => if (Turista.id r =? id)%Z then Turista.touch now r
                       else r) (turistas d))
        (turistas_auto_increment d) d, tt).

(** SELECT an.*, n.nombre as nombre_negocio FROM administradores_negocios an
    INNER JOIN negocios n ON an.negocio_id = n.id WHERE an.email = ? *)
Definition select_administradores (email : string) (d : Database)
  : Result (Database * list (AdminNegocio.row * string)) :=
  Ok (d,
      flat_map
        (fun an =>
           map (fun n => (an, Negocio.nombre n))
               (filter (fun n => (AdminNegocio.negocio_id an =? Negocio.id n)%Z)
                       (negocios d)))
        (filter (fun an => sql_text_eqb (AdminNegocio.email an) email)
                (administradores_negocios d))).

(** UPDATE administradores_negocios SET ultima_conexion = NOW()
    WHERE id = ? *)
Definition touch_administrador (id now : Z) (d : Database)
  : Result (Database * unit) :=
  Ok (with_administradores
        (map (fun r => if (AdminNegocio.id r =? id)%Z
                       then AdminNegocio.touch now r else r)
             (administradores_negocios d)) d, tt).

(** SELECT ... FROM super_administradores WHERE usuario = ?
    AND estado = 'activo' *)
Definition select_super_administradores (usuario : string) (d : Database)
  : Result (Database * list SuperAdmin.row) :=
  Ok (d,
      filter (fun r => (sql_text_eqb (SuperAdmin.usuario r) usuario
                        && sql_text_eqb (SuperAdmin.estado r) "activo")%bool)
             (super_administradores d)).

(** UPDATE super_administradores SET ultima_conexion = NOW() WHERE id = ? *)
Definition touch_super_administrador (id now : Z) (d : Database)
  : Result (Database * unit) :=
  Ok (with_super_administradores
        (map (fun r => if (SuperAdmin.id r =? id)%Z
                       then SuperAdmin.touch now r else r)
             (super_administradores d)) d, tt).

(** Modelled from the spec: the declaration of table [turistas], which is
    not in the repository.  The spec gives a tourist a unique email, a
    generated id and the status active by default; the INSERT of the
    registration handler names seven columns and leaves [estado] and [id]
    to the table.  The driver refuses a bind parameter that is
    [undefined]. *)
Definition insert_turista (nombre apellido email hashedPassword : string)
  (telefono pais_origen ciudad_origen : Bind) (d : Database)
  : Result (Database * Z) :=
  if (is_undefined telefono || is_undefined pais_origen
      || is_undefined ciudad_origen)%bool
  then Throw (TypeError "Bind parameters must not contain undefined")
  else if existsb (fun r => sql_text_eqb (Turista.email r) email) (turistas d)
  then Throw (DriverError "ER_DUP_ENTRY")
  else
    let insertId := turistas_auto_increment d in
    Ok (with_turistas
          (turistas d ++
           [{| Turista.id := insertId;
               Turista.nombre := nombre;
               Turista.apellido := apellido;
               Turista.email := email;
               Turista.password_hash := hashedPassword;
               Turista.telefono := column_of_bind telefono;
               Turista.pais_origen := column_of_bind pais_origen;
               Turista.ciudad_origen := column_of_bind ciudad_origen;
               Turista.estado := "activo";
               Turista.ultima_conexion := None |}])
          (insertId + 1) d,
        insertId).

(** ** Rutas de autenticación *)

Definition internal_error : Response :=
  failure 500 "Error interno del servidor".

(** POST /api/auth/turista/login, after [validateRequest] *)
Definition auth_turista_login (email password : string) (now : Z)
  : M Pool Response :=
  try_catch
    (users <- execute (select_turistas email) ;;
     match users with
     | [] => ret (failure 401 "Credenciales inválidas")
     | user :: _ =>
         if negb (String.eqb (Turista.estado user) "activo") then
           ret (failure 401 "Cuenta inactiva")
         else if negb (bcrypt_compare password (Turista.password_hash user))
         then ret (failure 401 "Credenciales inválidas")
         else
           let token :=
             jwt_sign
               (VObj [("id", VNum (of_Z (Turista.id user)));
                      ("email", VStr (Turista.email user));
                      ("tipo", VStr "turista")])
               JWT_SECRET "24h" now in
           execute (touch_turista (Turista.id user) now) ;;
           ret (json 200
                  [("success", VBool true);
                   ("message", VStr "Login exitoso");
                   ("data",
                    VObj [("token", VStr token);
                          ("user",
                           VObj [("id", VNum (of_Z (Turista.id user)));
                                 ("nombre", VStr (Turista.nombre user));
                                 ("apellido", VStr (Turista.apellido user));
                                 ("email", VStr (Turista.email user))])])])
     end)
    (fun error => ret internal_error).

(** POST /api/auth/admin/login, after [validateRequest] *)
Definition auth_admin_login (email password : string) (now : Z)
  : M Pool Response :=
  try_catch
    (users <- execute (select_administradores email) ;;
     match users with
     | [] => ret (failure 401 "Credenciales inválidas")
     | (user, nombre_negocio) :: _ =>
         if negb (String.eqb (AdminNegocio.estado user) "activo") then
           ret (failure 401 "Cuenta inactiva")
         else if negb (bcrypt_compare password
                         (AdminNegocio.password_hash user))
         then ret (failure 401 "Credenciales inválidas")
         else
           let token :=
             jwt_sign
               (VObj [("id", VNum (of_Z (AdminNegocio.id user)));
                      ("email", VStr (AdminNegocio.email user));
                      ("negocio_id",
                       VNum (of_Z (AdminNegocio.negocio_id user)));
                      ("tipo", VStr "admin_negocio")])
               JWT_SECRET "24h" now in
           execute (touch_administrador (AdminNegocio.id user) now) ;;
           ret (json 200
                  [("success", VBool true);
                   ("message", VStr "Login exitoso");
                   ("data",
                    VObj [("token", VStr token);
                          ("user",
                           VObj [("id", VNum (of_Z (AdminNegocio.id user)));
                                 ("nombre", VStr (AdminNegocio.nombre user));
                                 ("apellido",
                                  VStr (AdminNegocio.apellido user));
                                 ("email", VStr (AdminNegocio.email user));
                                 ("negocio_id",
                                  VNum (of_Z (AdminNegocio.negocio_id user)));
                                 ("nombre_negocio", VStr nombre_negocio);
                                 ("permisos",
                                  AdminNegocio.permisos user)])])])
     end)
    (fun error => ret internal_error).

(** POST /api/auth/super-admin/login, after [validateRequest] *)
Definition auth_super_admin_login (usuario password : string) (now : Z)
  : M Pool Response :=
  try_catch
    (users <- execute (select_super_administradores usuario) ;;
     match users with
     | [] => ret (failure 401 "Credenciales inválidas")
     | user :: _ =>
         if negb (bcrypt_compare password (SuperAdmin.password_hash user))
         then ret (failure 401 "Credenciales inválidas")
         else
           let token :=
             jwt_sign
               (VObj [("id", VNum (of_Z (SuperAdmin.id user)));
                      ("usuario", VStr (SuperAdmin.usuario user));
                      ("tipo", VStr "super_admin");
                      ("nivel_acceso", SuperAdmin.nivel_acceso user)])
               JWT_SECRET "24h" now in
           execute (touch_super_administrador (SuperAdmin.id user) now) ;;
           ret (json 200
                  [("success", VBool true);
                   ("message", VStr "Login exitoso");
                   ("data",
                    VObj [("token", VStr token);
                          ("user",
                           VObj [("id", VNum (of_Z (SuperAdmin.id user)));
                                 ("usuario", VStr (SuperAdmin.usuario user));
                                 ("nombre", VStr (SuperAdmin.nombre user));
                                 ("email", VStr (SuperAdmin.email user));
                                 ("nivel_acceso",
                                  SuperAdmin.nivel_acceso user);
                                 ("permisos", SuperAdmin.permisos user)])])])
     end)
    (fun error => ret internal_error).

(** POST /api/auth/turista/register, after [validateRequest]; [salt] is the
    salt [bcrypt.hash] draws. *)
Definition auth_turista_register (nombre apellido email password : string)
  (telefono pais_origen ciudad_origen : Bind) (salt : string)
  : M Pool Response :=
  try_catch
    (existingUsers <- execute (select_turistas email) ;;
     if (0 <? Z.of_nat (List.length existingUsers))%Z then
       ret (failure 400 "El email ya está registrado")
     else
       let hashedPassword := bcrypt_hash password 10 salt in
       insertId <-
         execute (insert_turista nombre apellido email hashedPassword
                    telefono pais_origen ciudad_origen) ;;
       ret (json 201
              [("success", VBool true);
               ("message", VStr "Turista registrado exitosamente");
               ("data", VObj [("id", VNum (of_Z insertId))])]))
    (fun error => ret internal_error).

(** ** Rutas de negocios *)

(** The handler of PUT /api/negocios/:id. *)
Definition put_negocios_id (req : Request) (body : Value) : M Pool Response :=
  try_catch
    (let negocioId := params_id req in
     tipo <- lift (get_property (user req) "tipo") ;;
     denied <-
       (if strict_equal_string tipo "admin_negocio" then
          negocio_id <- lift (get_property (user req) "negocio_id") ;;
          same <- lift (loosely_equal_string negocio_id negocioId) ;;
          ret (negb same)
        else ret false) ;;
     if denied : bool then
       ret (failure 403 "Sin permisos para este negocio")
     else
       execute (update_negocios body negocioId) ;;
       ret (json 200
              [("success", VBool true);
               ("message", VStr "Negocio actualizado exitosamente")]))
    (fun error => ret internal_error).

(** What the handler does once the permission test is passed: lines 451
    to 470. *)
Definition update_step (req : Request) (body : Value) : M Pool Response :=
  try_catch
    (execute (update_negocios body (params_id req)) ;;
     ret (json 200
            [("success", VBool true);
             ("message", VStr "Negocio actualizado exitosamente")]))
    (fun error => ret internal_error).

(** The route: [verifyToken(['admin_negocio', 'super_admin'])], then the
    handler on the request the middleware leaves. *)
Definition route_put_negocios_id (now : Z) (req : Request) (body : Value)
  (p : Pool) : Pool * Result Response :=
  match verifyToken ["admin_negocio"; "super_admin"] now req with
  | (_, Ok (Respond r)) => (p, Ok r)
  | (req', Ok Next) => put_negocios_id req' body p
  | (_, Throw e) => (p, Throw e)
  end.

(** ** Answers and callers, named *)

Definition no_token : Response := failure 401 "Token no proporcionado".
Definition invalid_token : Response := failure 401 "Token inválido".
Definition access_denied : Response := failure 403 "Acceso denegado".

Definition with_header (header : string) (req : Request) : Request :=
  {| authorization := Some header; params_id := params_id req;
     user := user req |}.

Definition not_your_business : Response :=
  failure 403 "Sin permisos para este negocio".

(** A caller the middleware bound with role [admin_negocio] and business
    id [negocio_id]. *)
Definition is_business_admin (u negocio_id : Value) : Prop :=
  get_property u "tipo" = Ok (VStr "admin_negocio")
  /\ get_property u "negocio_id" = Ok negocio_id.

Definition is_super_admin (u : Value) : Prop :=
  get_property u "tipo" = Ok (VStr "super_admin").

Definition invalid_credentials : Response :=
  failure 401 "Credenciales inválidas".
Definition inactive_account : Response := failure 401 "Cuenta inactiva".
Definition email_taken : Response := failure 400 "El email ya está registrado".

(** The success answer of a login: status 200 with the token and the
    public profile. *)
Definition login_ok (token : string) (profile : Value) : Response :=
  json 200
    [("success", VBool true);
     ("message", VStr "Login exitoso");
     ("data", VObj [("token", VStr token); ("user", profile)])].

Definition turista_token (user : Turista.row) (now : Z) : string :=
  jwt_sign
    (VObj [("id", VNum (of_Z (Turista.id user)));
           ("email", VStr (Turista.email user));
           ("tipo", VStr "turista")])
    JWT_SECRET "24h" now.

Definition turista_profile (user : Turista.row) : Value :=
  VObj [("id", VNum (of_Z (Turista.id user)));
        ("nombre", VStr (Turista.nombre user));
        ("apellido", VStr (Turista.apellido user));
        ("email", VStr (Turista.email user))].

Definition admin_token (user : AdminNegocio.row) (now : Z) : string :=
  jwt_sign
    (VObj [("id", VNum (of_Z (AdminNegocio.id user)));
           ("email", VStr (AdminNegocio.email user));
           ("negocio_id", VNum (of_Z (AdminNegocio.negocio_id user)));
           ("tipo", VStr "admin_negocio")])
    JWT_SECRET "24h" now.

Definition admin_profile (user : AdminNegocio.row) (nombre_negocio : string)
  : Value :=
  VObj [("id", VNum (of_Z (AdminNegocio.id user)));
        ("nombre", VStr (AdminNegocio.nombre user));
        ("apellido", VStr (AdminNegocio.apellido user));
        ("email", VStr (AdminNegocio.email user));
        ("negocio_id", VNum (of_Z (AdminNegocio.negocio_id user)));
        ("nombre_negocio", VStr nombre_negocio);
        ("permisos", AdminNegocio.permisos user)].

Definition super_token (user : SuperAdmin.row) (now : Z) : string :=
  jwt_sign
    (VObj [("id", VNum (of_Z (SuperAdmin.id user)));
           ("usuario", VStr (SuperAdmin.usuario user));
           ("tipo", VStr "super_admin");
           ("nivel_acceso", SuperAdmin.nivel_acceso user)])
    JWT_SECRET "24h" now.

Definition super_profile (user : SuperAdmin.row) : Value :=
  VObj [("id", VNum (of_Z (SuperAdmin.id user)));
        ("usuario", VStr (SuperAdmin.usuario user));
        ("nombre", VStr (SuperAdmin.nombre user));
        ("email", VStr (SuperAdmin.email user));
        ("nivel_acceso", SuperAdmin.nivel_acceso user);
        ("permisos", SuperAdmin.permisos user)].

(** The pool once a statement has gone through and left [d] behind. *)
Definition advanced (d : Database) (p : Pool) : Pool :=
  {| db := d; faults := tl (faults p) |}.

End Server.

(* ===================================================================== *)
(** * The Token Codec of the specification *)
(* ===================================================================== *)

Module TokenCodec.

(** Modelled from the spec: the three error kinds of verification. *)
Inductive CodecError : Type :=
| InvalidSignature
| Expired
| Malformed.

(** Modelled from the spec: the fixed lifetime of a token, 24 hours, in
    seconds. *)
Definition lifetime : Z := 24 * 60 * 60.

(** Modelled from the spec: a token is a signed claim set with its
    issuance time and its expiry. *)
Record Token : Type := {
  payload : string;      (* the serialized claim set *)
  issued_at : Z;
  expiry : Z;
  signature : string
}.

Section Codec.

Variable Claims : Type.
(** serialization of a claim set, and its inverse on well-formed text *)
Variable serialize : Claims -> string.
Variable parse : string -> option Claims.
(** symmetric signature of the signed part under a key *)
Variable sign : string -> string * Z * Z -> string.

(** Modelled from the spec: the signing half of the Token Codec, which
    is the jsonwebtoken library and not code of the repository.
    [issue] serializes the claim set, signs it with a symmetric key and
    embeds an expiry of exactly the issuance time plus 24 hours. *)
Definition issue (claims : Claims) (key : string) (now : Z) : Token :=
  let text := serialize claims in
  {| payload := text;
     issued_at := now;
     expiry := now + lifetime;
     signature := sign key (text, now, now + lifetime) |}.

(** Modelled from the spec: the verifying half of the Token Codec,
    which is the jsonwebtoken library and not code of the repository.
    [verify] fails with [Malformed] if the token cannot be parsed, with
    [InvalidSignature] if the signature does not match, with [Expired]
    if the current time has reached the embedded expiry, and otherwise
    returns the claims. *)
Definition verify (t : Token) (key : string) (now : Z)
  : Claims + CodecError :=
  match parse (payload t) with
  | None => inr Malformed
  | Some claims =>
      if negb (String.eqb (signature t)
                 (sign key (payload t, issued_at t, expiry t)))
      then inr InvalidSignature
      else if (expiry t <=? now)%Z then inr Expired
      else inl claims
  end.

End Codec.

End TokenCodec.

(* ===================================================================== *)
(** * A small installation, for concrete runs *)
(* ===================================================================== *)

Module Sample.

Definition turista_claims : Value :=
  VObj [("id", VNum (of_Z 1)); ("email", VStr "a@x.com");
        ("tipo", VStr "turista")].

Definition admin_claims : Value :=
  VObj [("id", VNum (of_Z 7)); ("email", VStr "b@x.com");
        ("negocio_id", VNum (of_Z 5)); ("tipo", VStr "admin_negocio")].

Definition super_claims : Value :=
  VObj [("id", VNum (of_Z 1)); ("usuario", VStr "root");
        ("tipo", VStr "super_admin"); ("nivel_acceso", VStr "total")].

(** A verifier that knows three tokens and one expired token. *)
Definition verify (token secret : string) (now : Z) : Result Value :=
  if String.eqb token "tok-turista" then Ok turista_claims
  else if String.eqb token "tok-admin_negocio" then Ok admin_claims
  else if String.eqb token "tok-super_admin" then Ok super_claims
  else if String.eqb token "tok-old" then Throw (TokenExpiredError "jwt expired")
  else Throw (JsonWebTokenError "jwt malformed").

Definition sign (claims : Value) (secret expiresIn : string) (now : Z)
  : string :=
  match get_property claims "tipo" with
  | Ok (VStr tipo) => "tok-" ++ tipo
  | _ => "tok"
  end.

Definition hash (data : string) (rounds : Z) (salt : string) : string :=
  data ++ "$" ++ salt.

Definition compare (data encrypted : string) : bool :=
  String.prefix (data ++ "$") encrypted.

(** The fields of the body that PUT /api/negocios/:id binds, lines 451 and
    452. *)
Definition negocio_fields : list string :=
  ["nombre"; "descripcion"; "direccion"; "telefono"; "email"; "categoria";
   "latitud"; "longitud"; "horario_apertura"; "horario_cierre";
   "dias_funcionamiento"; "sitio_web"].

(** Whether the destructuring of the body leaves a field [undefined]. *)
Definition leaves_undefined (body : Value) (k : string) : bool :=
  match get_property body k with
  | Ok VUndefined => true
  | _ => false
  end.

Fixpoint skip_spaces (s : string) : string :=
  match s with
  | String c r => if ws1 c then skip_spaces r else s
  | EmptyString => s
  end.

(** The number the database reads a text as when it compares it with a
    numeric column: the longest numeric prefix after leading white space, 0
    when there is none. *)
Definition number_of_text (s : string) : Number :=
  let '(neg, r) :=
    match skip_spaces s with
    | String "+" t => (false, t)
    | String "-" t => (true, t)
    | t => (false, t)
    end in
  match unsigned_decimal r with
  | Some (m, k, _) => of_decimal neg m k
  | None => pos_zero
  end.

(** COALESCE(?, nombre) for a bind parameter that is a text or [null]. *)
Definition coalesce_nombre (v : Value) (n : Negocio.row) : Negocio.row :=
  match v with
  | VStr s => {| Negocio.id := Negocio.id n; Negocio.nombre := s |}
  | _ => n
  end.

(** The UPDATE of PUT /api/negocios/:id with its bind parameters, on the
    two columns of the sample.  Destructuring a body that is [null] or
    [undefined] throws; the driver refuses a bind parameter that is
    [undefined], which is what a field the body does not have becomes;
    otherwise the rows whose id equals the id of the path take the name the
    body gives. *)
Definition update (body : Value) (negocioId : string) (d : Database)
  : Result (Database * unit) :=
  match body with
  | VUndefined | VNull =>
      Throw (TypeError "Cannot destructure property 'nombre' of 'req.body'")
  | _ =>
      if existsb (leaves_undefined body) negocio_fields then
        Throw (TypeError "Bind parameters must not contain undefined")
      else
        match get_property body "nombre" with
        | Ok nombre =>
            Ok (with_negocios
                  (map (fun n =>
                          if number_equal (of_Z (Negocio.id n))
                               (number_of_text negocioId)
                          then coalesce_nombre nombre n else n)
                       (negocios d)) d, tt)
        | Throw e => Throw e
        end
  end.

(** A body that renames the business and leaves the other columns as they
    are. *)
Definition rename_body (nombre : string) : Value :=
  VObj (("nombre", VStr nombre)
        :: map (fun k => (k, VNull)) (tl negocio_fields)).

Definition environment : Environment := {|
  env_JWT_SECRET := None;
  jwt_sign := sign;
  jwt_verify := verify;
  bcrypt_hash := hash;
  bcrypt_compare := compare;
  sql_text_eqb := String.eqb;
  update_negocios := update
|}.

Definition ana : Turista.row :=
  {| Turista.id := 1; Turista.nombre := "Ana"; Turista.apellido := "Paz";
     Turista.email := "a@x.com"; Turista.password_hash := "secret1$s";
     Turista.telefono := None; Turista.pais_origen := None;
     Turista.ciudad_origen := None; Turista.estado := "activo";
     Turista.ultima_conexion := None |}.

Definition luis : Turista.row :=
  {| Turista.id := 2; Turista.nombre := "Luis"; Turista.apellido := "Sol";
     Turista.email := "l@x.com"; Turista.password_hash := "secret2$s";
     Turista.telefono := None; Turista.pais_origen := None;
     Turista.ciudad_origen := None; Turista.estado := "inactivo";
     Turista.ultima_conexion := None |}.

Definition cafe : Negocio.row :=
  {| Negocio.id := 5; Negocio.nombre := "Cafe" |}.

Definition berta : AdminNegocio.row :=
  {| AdminNegocio.id := 7; AdminNegocio.negocio_id := 5;
     AdminNegocio.nombre := "Berta"; AdminNegocio.apellido := "Ruiz";
     AdminNegocio.email := "b@x.com";
     AdminNegocio.password_hash := "secret3$s";
     AdminNegocio.estado := "activo"; AdminNegocio.permisos := VNull;
     AdminNegocio.ultima_conexion := None |}.

Definition carlos : AdminNegocio.row :=
  {| AdminNegocio.id := 8; AdminNegocio.negocio_id := 5;
     AdminNegocio.nombre := "Carlos"; AdminNegocio.apellido := "Ruiz";
     AdminNegocio.email := "c@x.com";
     AdminNegocio.password_hash := "secret4$s";
     AdminNegocio.estado := "inactivo"; AdminNegocio.permisos := VNull;
     AdminNegocio.ultima_conexion := None |}.

Definition root : SuperAdmin.row :=
  {| SuperAdmin.id := 1; SuperAdmin.usuario := "root";
     SuperAdmin.nombre := "Root"; SuperAdmin.email := "r@x.com";
     SuperAdmin.password_hash := "secret5$s";
     SuperAdmin.nivel_acceso := VStr "total"; SuperAdmin.permisos := VNull;
     SuperAdmin.estado := "activo"; SuperAdmin.ultima_conexion := None |}.

Definition retired : SuperAdmin.row :=
  {| SuperAdmin.id := 2; SuperAdmin.usuario := "retired";
     SuperAdmin.nombre := "Old"; SuperAdmin.email := "o@x.com";
     SuperAdmin.password_hash := "secret6$s";
     SuperAdmin.nivel_acceso := VStr "total"; SuperAdmin.permisos := VNull;
     SuperAdmin.estado := "inactivo"; SuperAdmin.ultima_conexion := None |}.

Definition database : Database :=
  {| turistas := [ana; luis];
     turistas_auto_increment := 3;
     negocios := [cafe];
     administradores_negocios := [berta; carlos];
     super_administradores := [root; retired] |}.

(** A pool whose connection never fails. *)
Definition pool : Pool := {| db := database; faults := [] |}.

(** A pool whose connection fails on the second statement. *)
Definition flaky_pool : Pool := {| db := database; faults := [false; true] |}.

Definition request (header : option string) (id : string) (u : Value)
  : Request :=
  {| authorization := header; params_id := id; user := u |}.

End Sample.

(* ===================================================================== *)
(** * The listing of businesses and the state logins leave *)
(* ===================================================================== *)

(** ** [parseInt(s)] with no radix

    Leading white space is dropped, then an optional sign, then the prefix
    [0x] or [0X] (which selects radix 16, otherwise the radix is 10); the
    longest run of digits of the radix that follows is the value, and when
    there is no digit the result is NaN.  What follows the digits is
    ignored. *)
Definition parseInt (s : string) : Number :=
  let t := skip_ws s in
  let '(neg, r) :=
    match t with
    | String "+" u => (false, u)
    | String "-" u => (true, u)
    | _ => (false, t)
    end in
  let '(radix, digits) :=
    match r with
    | String "0" (String x u) =>
        if (Ascii.eqb x "x" || Ascii.eqb x "X")%bool then (16%N, u)
        else (10%N, r)
    | _ => (10%N, r)
    end in
  match radix_digits radix 0%N false digits with
  | (Some N0, _) => S754_zero neg
  | (Some n, _) => of_Z (cond_Zopp neg (Z.of_N n))
  | (None, _) => NaN
  end.

(** [x - y] and [x * y] on numbers *)
Definition number_sub (x y : Number) : Number := SFsub prec emax x y.
Definition number_mul (x y : Number) : Number := SFmul prec emax x y.

(** A value bound to a placeholder of a statement. *)
Inductive Param : Type :=
| PText (s : string)
| PNumber (x : Number).

(** [if (s)] for a field of [req.query] that is a text or is absent. *)
Definition truthy_field (s : option string) : bool :=
  negb (falsy_text s).

(** The template literal the query of GET /api/negocios starts from. *)
Definition negocios_select : string :=
  "
            SELECT id, nombre, descripcion, direccion, telefono, email, categoria, 
                   latitud, longitud, horario_apertura, horario_cierre, dias_funcionamiento,
                   imagen_principal, sitio_web, calificacion_promedio, total_resenas, estado
            FROM negocios WHERE 1=1
        ".

(** GET /api/negocios, lines 361 to 383: the statement and the bind
    parameters the handler builds from [req.query].  The four fields are
    texts or absent; [limite] defaults to the number 50 and [pagina] to the
    number 1, which [parseInt] reads through their decimal text. *)
Definition negocios_listing (categoria estado limite pagina : option string)
  : string * list Param :=
  let limite := match limite with Some s => s | None => "50" end in
  let pagina := match pagina with Some s => s | None => "1" end in
  let query := negocios_select in
  let params : list Param := [] in
  let '(query, params) :=
    if truthy_field categoria then
      (query ++ " AND categoria = ?",
       (params ++
        [PText (match categoria with Some s => s | None => "" end)])%list)
    else (query, params) in
  let '(query, params) :=
    if truthy_field estado then
      (query ++ " AND estado = ?",
       (params ++
        [PText (match estado with Some s => s | None => "" end)])%list)
    else (query, params) in
  let query :=
    query ++ " ORDER BY calificacion_promedio DESC, total_resenas DESC" in
  let query := query ++ " LIMIT ? OFFSET ?" in
  (query,
   (params ++
    [PNumber (parseInt limite);
     PNumber (number_mul (number_sub (parseInt pagina) (of_Z 1))
                (parseInt limite))])%list).

(** The number of placeholders of a statement. *)
Fixpoint placeholders (s : string) : nat :=
  match s with
  | EmptyString => O
  | String c r => if Ascii.eqb c "?" then S (placeholders r) else placeholders r
  end.

(** The value of a run of decimal digits read after [acc]. *)
Fixpoint digits_value (acc : N) (d : uint) : N :=
  match d with
  | Nil => acc
  | D0 l => digits_value (acc * 10 + 0) l
  | D1 l => digits_value (acc * 10 + 1) l
  | D2 l => digits_value (acc * 10 + 2) l
  | D3 l => digits_value (acc * 10 + 3) l
  | D4 l => digits_value (acc * 10 + 4) l
  | D5 l => digits_value (acc * 10 + 5) l
  | D6 l => digits_value (acc * 10 + 6) l
  | D7 l => digits_value (acc * 10 + 7) l
  | D8 l => digits_value (acc * 10 + 8) l
  | D9 l => digits_value (acc * 10 + 9) l
  end%N.

(** The bind parameters of the two optional filters. *)
Definition filter_params (categoria estado : option string) : list Param :=
  ((if truthy_field categoria
    then [PText (match categoria with Some s => s | None => "" end)]
    else [])
   ++ (if truthy_field estado
       then [PText (match estado with Some s => s | None => "" end)]
       else []))%list.

(** A field of [req.query] holding the decimal text of an integer, or
    absent. *)
Definition decimal_field (z : option Z) : option string :=
  option_map decimal_string z.

Definition or_default (default : Z) (z : option Z) : Z :=
  match z with
  | Some v => v
  | None => default
  end.

(** The answer of a successful registration. *)
Definition created (insertId : Z) : Response :=
  json 201
    [("success", VBool true);
     ("message", VStr "Turista registrado exitosamente");
     ("data", VObj [("id", VNum (of_Z insertId))])].

(** ** What a login may change *)

(** A row without its last connection. *)
Definition forget_turista (r : Turista.row) : Turista.row :=
  {| Turista.id := Turista.id r; Turista.nombre := Turista.nombre r;
     Turista.apellido := Turista.apellido r; Turista.email := Turista.email r;
     Turista.password_hash := Turista.password_hash r;
     Turista.telefono := Turista.telefono r;
     Turista.pais_origen := Turista.pais_origen r;
     Turista.ciudad_origen := Turista.ciudad_origen r;
     Turista.estado := Turista.estado r;
     Turista.ultima_conexion := None |}.

Definition forget_administrador (r : AdminNegocio.row) : AdminNegocio.row :=
  {| AdminNegocio.id := AdminNegocio.id r;
     AdminNegocio.negocio_id := AdminNegocio.negocio_id r;
     AdminNegocio.nombre := AdminNegocio.nombre r;
     AdminNegocio.apellido := AdminNegocio.apellido r;
     AdminNegocio.email := AdminNegocio.email r;
     AdminNegocio.password_hash := AdminNegocio.password_hash r;
     AdminNegocio.estado := AdminNegocio.estado r;
     AdminNegocio.permisos := AdminNegocio.permisos r;
     AdminNegocio.ultima_conexion := None |}.

Definition forget_super_administrador (r : SuperAdmin.row) : SuperAdmin.row :=
  {| SuperAdmin.id := SuperAdmin.id r; SuperAdmin.usuario := SuperAdmin.usuario r;
     SuperAdmin.nombre := SuperAdmin.nombre r;
     SuperAdmin.email := SuperAdmin.email r;
     SuperAdmin.password_hash := SuperAdmin.password_hash r;
     SuperAdmin.nivel_acceso := SuperAdmin.nivel_acceso r;
     SuperAdmin.permisos := SuperAdmin.permisos r;
     SuperAdmin.estado := SuperAdmin.estado r;
     SuperAdmin.ultima_conexion := None |}.

(** The database without the last connections: everything a login has no
    business changing. *)
Definition forget_connections (d : Database) : Database :=
  {| turistas := map forget_turista (turistas d);
     turistas_auto_increment := turistas_auto_increment d;
     negocios := negocios d;
     administradores_negocios :=
       map forget_administrador (administradores_negocios d);
     super_administradores :=
       map forget_super_administrador (super_administradores d) |}.

(** ** The principal an identifier designates *)

Section Principals.

Context {E : Environment}.




End Principals.


Section Uniqueness.

Context {E : Environment}.


End Uniqueness.

(* ===================================================================== *)
(** * Numbers *)
(* ===================================================================== *)

Section NumberFacts.

Lemma digits2_pos_shift (p n : positive) :
  digits2_pos (Pos.iter xO p n) = (digits2_pos p + n)%positive.
Proof.
  induction n as [|n IH] using Pos.peano_ind.
  - simpl. now rewrite Pos.add_1_r.
  - rewrite Pos.iter_succ. simpl. rewrite IH. lia.
Qed.

Lemma shift_injective (n p q : positive) :
  Pos.iter xO p n = Pos.iter xO q n -> p = q.
Proof.
  induction n as [|n IH] using Pos.peano_ind.
  - simpl. congruence.
  - rewrite !Pos.iter_succ. intros H. apply IH. congruence.
Qed.

Lemma binary_round_aux_exact (s : bool) (m : positive) (e : Z) :
  Zpos (digits2_pos m) = 53 -> -1074 <= e <= 971 ->
  binary_round_aux prec emax s (Zpos m) e loc_Exact = S754_finite s m e.
Proof.
  intros Hd He.
  assert (Hf : fexp prec emax (Zpos (digits2_pos m) + e) - e = 0).
  { unfold fexp, emin, prec, emax. rewrite Hd. lia. }
  unfold binary_round_aux, shr_fexp. simpl Zdigits2. rewrite Hf.
  cbn [shr shr_record_of_loc shr_m loc_of_shr_record round_nearest_even Zdigits2].
  rewrite Hf. cbn [shr shr_record_of_loc shr_m].
  destruct (Z.leb_spec e (emax - prec)) as [_|H]; [reflexivity|].
  unfold emax, prec in H. lia.
Qed.
Lemma binary_round_small (s : bool) (p : positive) :
  Zpos (digits2_pos p) <= 53 ->
  binary_round prec emax s p 0 =
  S754_finite s (fst (normal_form p)) (Zpos (digits2_pos p) - 53).
Proof.
  intros Hd. unfold binary_round.
  assert (Hf : fexp prec emax (Zpos (digits2_pos p) + 0)
               = Zpos (digits2_pos p) - 53).
  { unfold fexp, emin, prec, emax. lia. }
  rewrite Hf. fold (normal_form p). unfold normal_form, shl_align.
  destruct (Zpos (digits2_pos p) - 53 - 0) as [|k|k] eqn:Hk; try lia.
  - simpl fst. replace (Zpos (digits2_pos p) - 53) with 0 by lia.
    apply binary_round_aux_exact; lia.
  - simpl fst. apply binary_round_aux_exact.
    + rewrite digits2_pos_shift. lia.
    + lia.
Qed.

Lemma digits2_pos_bound (p : positive) :
  Zpos p < 2 ^ 53 -> Zpos (digits2_pos p) <= 53.
Proof.
  intros H.
  assert (Hlow : 2 ^ (Zpos (digits2_pos p) - 1) <= Zpos p).
  { clear H. induction p as [p IH|p IH|]; simpl digits2_pos.
    - rewrite Pos2Z.inj_succ.
      replace (Z.succ (Zpos (digits2_pos p)) - 1)
        with (Z.succ (Zpos (digits2_pos p) - 1)) by lia.
      rewrite Z.pow_succ_r by lia. lia.
    - rewrite Pos2Z.inj_succ.
      replace (Z.succ (Zpos (digits2_pos p)) - 1)
        with (Z.succ (Zpos (digits2_pos p) - 1)) by lia.
      rewrite Z.pow_succ_r by lia. lia.
    - simpl. lia. }
  destruct (Z.le_gt_cases (Zpos (digits2_pos p)) 53) as [Hle|Hgt]; [exact Hle|].
  assert (2 ^ 53 <= 2 ^ (Zpos (digits2_pos p) - 1))
    by (apply Z.pow_le_mono_r; lia).
  lia.
Qed.

Lemma normal_form_injective (p q : positive) :
  Zpos (digits2_pos p) <= 53 -> Zpos (digits2_pos q) <= 53 ->
  digits2_pos p = digits2_pos q ->
  fst (normal_form p) = fst (normal_form q) -> p = q.
Proof.
  intros Hp Hq Hd. unfold normal_form, shl_align. rewrite <- Hd.
  destruct (Zpos (digits2_pos p) - 53 - 0) as [|k|k]; simpl fst.
  - congruence.
  - congruence.
  - apply shift_injective.
Qed.

(** On the safe integers [of_Z] loses nothing: equal numbers come from
    equal integers. *)
Lemma of_Z_equal_iff (n m : Z) :
  safe_integer n -> safe_integer m ->
  (number_equal (of_Z n) (of_Z m) = true <-> n = m).
Proof.
  unfold safe_integer. intros Hn Hm. split.
  2:{ intros ->. unfold number_equal, of_Z.
      destruct m as [|p|p]; simpl binary_normalize.
      - reflexivity.
      - rewrite binary_round_small by (apply digits2_pos_bound; lia).
        unfold SFeqb, SFcompare. rewrite Z.compare_refl.
        now rewrite Pos.compare_cont_refl.
      - rewrite binary_round_small by (apply digits2_pos_bound; lia).
        unfold SFeqb, SFcompare. rewrite Z.compare_refl.
        now rewrite Pos.compare_cont_refl. }
  unfold number_equal, of_Z.
  destruct n as [|p|p], m as [|q|q]; simpl binary_normalize;
    try reflexivity;
    repeat rewrite binary_round_small by (apply digits2_pos_bound; lia);
    unfold SFeqb, SFcompare; try discriminate.
  - destruct (Z.compare_spec (Zpos (digits2_pos p) - 53)
                (Zpos (digits2_pos q) - 53)) as [He|He|He]; try discriminate.
    destruct (Pos.compare_cont Eq (fst (normal_form p)) (fst (normal_form q)))
      eqn:Hc; try discriminate.
    intros _. apply Pos.compare_eq in Hc. f_equal.
    apply normal_form_injective; try (apply digits2_pos_bound; lia);
      [lia | exact Hc].
  - destruct (Z.compare_spec (Zpos (digits2_pos p) - 53)
                (Zpos (digits2_pos q) - 53)) as [He|He|He]; try discriminate.
    destruct (Pos.compare_cont Eq (fst (normal_form p)) (fst (normal_form q)))
      eqn:Hc; try discriminate.
    intros _. apply Pos.compare_eq in Hc. f_equal.
    apply normal_form_injective; try (apply digits2_pos_bound; lia);
      [lia | exact Hc].
Qed.

Lemma take_digits_string_of_uint (d : uint) :
  take_digits (NilEmpty.string_of_uint d) = (d, "").
Proof.
  induction d; simpl; try rewrite IHd; reflexivity.
Qed.

(** A digit string starts with a digit. *)
Lemma string_of_uint_head (d : uint) :
  d <> Nil ->
  exists c r f, NilEmpty.string_of_uint d = String c r
                /\ decimal_digit c = Some f.
Proof.
  destruct d; intros H; try congruence; simpl;
    do 3 eexists; split; reflexivity.
Qed.

Lemma skip_ws_digit (c : ascii) (r : string) (f : uint -> uint) :
  decimal_digit c = Some f -> skip_ws (String c r) = String c r.
Proof.
  intros H.
  destruct c as [[] [] [] [] [] [] [] []]; simpl in H; try discriminate;
    destruct r as [|c2 [|c3 r3]]; reflexivity.
Qed.

Lemma decimal_literal_digit (c : ascii) (r : string) (f : uint -> uint) :
  decimal_digit c = Some f ->
  decimal_literal (String c r) =
  match unsigned_decimal (String c r) with
  | Some (m, k, rest) => Some (of_decimal false m k, rest)
  | None => None
  end.
Proof.
  intros H.
  destruct c as [[] [] [] [] [] [] [] []]; simpl in H; try discriminate;
    reflexivity.
Qed.

Lemma radix_literal_string_of_uint (d : uint) :
  radix_literal (NilEmpty.string_of_uint d) = None.
Proof.
  destruct d as [|d|d|d|d|d|d|d|d|d|d]; try reflexivity.
  destruct d; reflexivity.
Qed.

Lemma unsigned_decimal_string_of_uint (d : uint) :
  d <> Nil ->
  unsigned_decimal (NilEmpty.string_of_uint d) = Some (N.of_uint d, 0, "").
Proof.
  intros H. unfold unsigned_decimal.
  rewrite take_digits_string_of_uint. simpl.
  destruct d; try congruence; simpl is_nil; cbn iota;
    rewrite DecimalFacts.app_nil_r; reflexivity.
Qed.

Lemma StringToNumber_digits (p : positive) :
  StringToNumber (NilEmpty.string_of_uint (Pos.to_uint p)) = of_Z (Zpos p).
Proof.
  pose proof (DecimalPos.Unsigned.to_uint_nonnil p) as Hnil.
  destruct (string_of_uint_head _ Hnil) as (c & r & f & Hs & Hc).
  unfold StringToNumber, all_ws.
  rewrite Hs, (skip_ws_digit c r f Hc). cbv zeta. cbn [String.eqb].
  rewrite (decimal_literal_digit c r f Hc), <- Hs.
  rewrite radix_literal_string_of_uint.
  rewrite (unsigned_decimal_string_of_uint _ Hnil).
  cbn [skip_ws String.eqb].
  unfold N.of_uint. rewrite DecimalPos.Unsigned.of_to.
  unfold of_decimal, of_Z. cbn [cond_Zopp]. now rewrite Z.pow_0_r, Z.mul_1_r.
Qed.

Lemma skip_ws_minus (r : string) : skip_ws (String "-" r) = String "-" r.
Proof. destruct r as [|c2 [|c3 r3]]; reflexivity. Qed.

Lemma StringToNumber_minus_digits (p : positive) :
  StringToNumber (String "-" (NilEmpty.string_of_uint (Pos.to_uint p)))
  = of_Z (Zneg p).
Proof.
  pose proof (DecimalPos.Unsigned.to_uint_nonnil p) as Hnil.
  unfold StringToNumber, all_ws. rewrite skip_ws_minus. cbv zeta.
  cbn [String.eqb Ascii.eqb Bool.eqb].
  assert (Hr : forall s, radix_literal (String "-" s) = None) by reflexivity.
  rewrite Hr. unfold decimal_literal.
  assert (Hp : strip_prefix "Infinity"
                 (NilEmpty.string_of_uint (Pos.to_uint p)) = None).
  { destruct (Pos.to_uint p); reflexivity. }
  rewrite Hp, (unsigned_decimal_string_of_uint _ Hnil).
  cbn [skip_ws String.eqb].
  unfold N.of_uint. rewrite DecimalPos.Unsigned.of_to.
  unfold of_decimal, of_Z. cbn [cond_Zopp].
  now rewrite Z.pow_0_r, Z.mul_1_r.
Qed.

(** The decimal text of an integer denotes that integer. *)
Lemma StringToNumber_decimal_string (z : Z) :
  StringToNumber (decimal_string z) = of_Z z.
Proof.
  pose proof (fun p => DecimalPos.Unsigned.to_uint_nonnil p) as Hnil.
  destruct z as [|p|p]; [reflexivity| |]; unfold decimal_string; simpl.
  - unfold NilZero.string_of_uint.
    specialize (Hnil p). destruct (Pos.to_uint p) eqn:Hd; try congruence;
      rewrite <- Hd; apply StringToNumber_digits.
  - unfold NilZero.string_of_uint.
    specialize (Hnil p). destruct (Pos.to_uint p) eqn:Hd; try congruence;
      rewrite <- Hd; apply StringToNumber_minus_digits.
Qed.

End NumberFacts.

(* ===================================================================== *)
(** * The access guard *)
(* ===================================================================== *)

Section TextFacts.

Lemma split_space_nonempty (s : string) : split_space s <> [].
Proof.
  destruct s as [|c r]; simpl; [discriminate|].
  destruct (Ascii.eqb c " "); [discriminate|].
  destruct (split_space r); discriminate.
Qed.

Lemma split_space_no_space (s : string) :
  has_space s = false -> split_space s = [s].
Proof.
  induction s as [|c r IH]; simpl; [reflexivity|].
  destruct (Ascii.eqb c " "); simpl; [discriminate|].
  intros H. now rewrite (IH H).
Qed.

Lemma split_space_append (scheme rest : string) :
  has_space scheme = false ->
  split_space (scheme ++ " " ++ rest) = scheme :: split_space rest.
Proof.
  change (" " ++ rest) with (String " " rest).
  induction scheme as [|c r IH]; simpl; [reflexivity|].
  destruct (Ascii.eqb c " "); simpl; [discriminate|].
  intros H. now rewrite (IH H).
Qed.

Lemma first_piece_no_space (t : string) :
  has_space t = false -> first_piece t = t.
Proof. intros H. unfold first_piece. now rewrite split_space_no_space. Qed.

Lemma first_piece_append (t more : string) :
  has_space t = false -> first_piece (t ++ " " ++ more) = t.
Proof. intros H. unfold first_piece. now rewrite split_space_append. Qed.

Lemma index_1_append (scheme rest : string) :
  has_space scheme = false ->
  index (split_space (scheme ++ " " ++ rest)) 1 = Some (first_piece rest).
Proof.
  intros H. rewrite split_space_append by exact H.
  unfold index, first_piece. simpl.
  destruct (split_space rest) eqn:Hs; [|reflexivity].
  now destruct (split_space_nonempty rest).
Qed.

Lemma index_1_no_space (header : string) :
  has_space header = false -> index (split_space header) 1 = None.
Proof. intros H. now rewrite split_space_no_space. Qed.

End TextFacts.

Section Guard.

Context {E : Environment}.

Lemma truthy_text (t : string) : t <> "" -> falsy_text (Some t) = false.
Proof. intros H. unfold falsy_text. now apply String.eqb_neq. Qed.

Lemma verifyToken_no_token (roles : list string) (now : Z) (req : Request) :
  falsy_text (token_of req) = true ->
  verifyToken roles now req = (req, Ok (Respond no_token)).
Proof.
  intros H. unfold verifyToken, bind, reads; cbv beta iota.
  destruct (token_of req) as [t|]; [|reflexivity].
  now rewrite H.
Qed.

Lemma verifyToken_throw (roles : list string) (now : Z) (req : Request)
  (t : string) (e : Error) :
  token_of req = Some t -> t <> "" ->
  jwt_verify t JWT_SECRET now = Throw e ->
  verifyToken roles now req = (req, Ok (Respond invalid_token)).
Proof.
  intros Ht Hne Hv. unfold verifyToken, bind, reads; cbv beta iota. rewrite Ht.
  rewrite (truthy_text t Hne).
  unfold try_catch, lift. now rewrite Hv.
Qed.

Lemma verifyToken_unrestricted (now : Z) (req : Request) (t : string)
  (decoded : Value) :
  token_of req = Some t -> t <> "" ->
  jwt_verify t JWT_SECRET now = Ok decoded ->
  verifyToken [] now req = (set_user decoded req, Ok Next).
Proof.
  intros Ht Hne Hv. unfold verifyToken, bind, reads; cbv beta iota. rewrite Ht.
  rewrite (truthy_text t Hne).
  unfold try_catch, lift. now rewrite Hv.
Qed.

Lemma verifyToken_restricted (roles : list string) (now : Z) (req : Request)
  (t : string) (decoded tipo : Value) :
  token_of req = Some t -> t <> "" ->
  jwt_verify t JWT_SECRET now = Ok decoded ->
  get_property decoded "tipo" = Ok tipo ->
  roles <> [] ->
  verifyToken roles now req =
  (set_user decoded req,
   Ok (if includes roles tipo then Next else Respond access_denied)).
Proof.
  intros Ht Hne Hv Hp Hr. unfold verifyToken, bind, reads; cbv beta iota. rewrite Ht.
  rewrite (truthy_text t Hne).
  unfold try_catch, lift. rewrite Hv. unfold modify.
  destruct roles as [|r roles]; [easy|].
  cbn [List.length]. rewrite Hp.
  destruct (includes (r :: roles) tipo);
    destruct (Z.ltb_spec 0 (Z.of_nat (S (List.length roles))));
    try reflexivity; lia.
Qed.

Lemma verifyToken_total (roles : list string) (now : Z) (req : Request) :
  exists req' flow,
    verifyToken roles now req = (req', Ok flow)
    /\ (flow = Respond no_token \/ flow = Respond invalid_token
        \/ flow = Respond access_denied \/ flow = Next).
Proof.
  destruct (falsy_text (token_of req)) eqn:Hf.
  { exists req, (Respond no_token). split; [|now left].
    now apply verifyToken_no_token. }
  destruct (token_of req) as [t|] eqn:Ht; [|discriminate].
  assert (Hne : t <> "").
  { intros ->. discriminate. }
  destruct (jwt_verify t JWT_SECRET now) as [decoded|e] eqn:Hv.
  2:{ exists req, (Respond invalid_token). split; [|now right; left].
      eapply verifyToken_throw; eauto. }
  destruct roles as [|r roles].
  { exists (set_user decoded req), Next. split; [|now repeat right].
    eapply verifyToken_unrestricted; eauto. }
  destruct (get_property decoded "tipo") as [tipo|e] eqn:Hp.
  - exists (set_user decoded req).
    eexists. split.
    + eapply verifyToken_restricted; eauto. discriminate.
    + destruct (includes (r :: roles) tipo); auto.
  - exists (set_user decoded req), (Respond invalid_token).
    split; [|now right; left].
    unfold verifyToken, bind, reads; cbv beta iota. rewrite Ht.
    rewrite (truthy_text t Hne).
    unfold try_catch, lift. rewrite Hv. unfold modify.
    cbn [List.length]. rewrite Hp.
    destruct (Z.ltb_spec 0 (Z.of_nat (S (List.length roles))));
      try reflexivity; lia.
Qed.

(** [roles.includes(x)] is membership of the list: it holds exactly when
    [x] is a string and that string is one of the roles. *)
Lemma includes_In (roles : list string) (x : Value) :
  includes roles x = true <-> exists s, x = VStr s /\ In s roles.
Proof.
  unfold includes. rewrite existsb_exists. split.
  - intros (r & Hin & Heq). destruct x; try discriminate.
    cbn [strict_equal_string] in Heq. apply String.eqb_eq in Heq. subst.
    eauto.
  - intros (s & -> & Hin). exists s. split; [assumption|].
    cbn [strict_equal_string]. apply String.eqb_refl.
Qed.

Lemma includes_not_In (roles : list string) (x : Value) :
  (forall s, x = VStr s -> ~ In s roles) -> includes roles x = false.
Proof.
  intros H. destruct (includes roles x) eqn:Hi; [|reflexivity].
  apply includes_In in Hi. destruct Hi as (s & Hx & Hin).
  now destruct (H s Hx).
Qed.

(** C1. The decision of [verifyToken]: without a token the request is
    answered 401 (no token); when [jwt.verify] throws, whatever the error,
    it is answered 401 (invalid token); when the token verifies and the
    decoded [tipo] is not one of a non-empty list of roles (it is no string,
    or a string that is not in the list) it is answered 403; otherwise (the
    list is empty, or [tipo] is a string of the list) the decoded claims are
    bound to [req.user] and [next] is called.  The middleware itself never
    throws. *)
Theorem verifyToken_decision (roles : list string) (now : Z) (req : Request) :
  (falsy_text (token_of req) = true ->
   verifyToken roles now req = (req, Ok (Respond no_token)))
  /\ (forall t,
        token_of req = Some t -> t <> "" ->
        (forall e,
            jwt_verify t JWT_SECRET now = Throw e ->
            verifyToken roles now req = (req, Ok (Respond invalid_token)))
        /\ (forall decoded tipo,
              jwt_verify t JWT_SECRET now = Ok decoded ->
              get_property decoded "tipo" = Ok tipo ->
              (roles <> [] /\ (forall s, tipo = VStr s -> ~ In s roles) ->
               verifyToken roles now req =
               (set_user decoded req, Ok (Respond access_denied)))
              /\ (roles = [] \/ (exists s, tipo = VStr s /\ In s roles) ->
                  verifyToken roles now req =
                  (set_user decoded req, Ok Next))))
  /\ (exists req' flow, verifyToken roles now req = (req', Ok flow)).
Proof.
  split; [apply verifyToken_no_token|]. split.
  - intros t Ht Hne. split.
    + intros e Hv. eapply verifyToken_throw; eauto.
    + intros decoded tipo Hv Hp. split.
      * intros [Hr Hi].
        rewrite (verifyToken_restricted roles now req t decoded tipo)
          by assumption.
        now rewrite (includes_not_In roles tipo Hi).
      * intros [->|Hi].
        -- eapply verifyToken_unrestricted; eauto.
        -- apply includes_In in Hi.
           destruct roles as [|r roles]; [discriminate|].
           rewrite (verifyToken_restricted (r :: roles) now req t decoded tipo)
             by (assumption || discriminate).
           now rewrite Hi.
  - destruct (verifyToken_total roles now req) as (req' & flow & H & _).
    eauto.
Qed.

(** C7. With an empty list of roles every request that carries a token
    [jwt.verify] accepts is let through, whatever the claims say: the empty
    list restricts nothing. *)
Theorem verifyToken_empty_roles (now : Z) (req : Request) (t : string)
  (decoded : Value) :
  token_of req = Some t -> t <> "" ->
  jwt_verify t JWT_SECRET now = Ok decoded ->
  verifyToken [] now req = (set_user decoded req, Ok Next).
Proof. apply verifyToken_unrestricted. Qed.

(** The middleware looks at the header only through [token_of]. *)
Lemma verifyToken_same_token (roles : list string) (now : Z)
  (req1 req2 : Request) :
  token_of req1 = token_of req2 ->
  snd (verifyToken roles now req1) = snd (verifyToken roles now req2)
  /\ (user req1 = user req2 ->
      user (fst (verifyToken roles now req1))
      = user (fst (verifyToken roles now req2))).
Proof.
  intros H. unfold verifyToken, bind, reads; cbv beta iota. rewrite H.
  destruct (token_of req2) as [t|]; [|simpl; auto].
  destruct (falsy_text (Some t)); [simpl; auto|].
  unfold try_catch, lift.
  destruct (jwt_verify t JWT_SECRET now) as [decoded|e]; [|simpl; auto].
  unfold modify.
  destruct (0 <? Z.of_nat (List.length roles)).
  - destruct (get_property decoded "tipo") as [tipo|e]; [|simpl; auto].
    unfold ret. destruct (negb (includes roles tipo)); simpl; auto.
  - simpl; auto.
Qed.

(** C9, as the code has it.  The scheme word is never looked at: when the
    header value has a space, the token is the text between the first space
    and the next one (or the end of the value), so two values that differ
    only in the word before the first space are treated alike; when that
    text is empty, when the value has no space, and when the header is
    absent, the request is answered 401 (no token). *)
Theorem token_is_second_piece (roles : list string) (now : Z) (req : Request) :
  (forall scheme rest,
      has_space scheme = false ->
      token_of (with_header (scheme ++ " " ++ rest) req)
      = Some (first_piece rest))
  /\ (forall scheme scheme' rest,
        has_space scheme = false -> has_space scheme' = false ->
        snd (verifyToken roles now (with_header (scheme ++ " " ++ rest) req))
        = snd (verifyToken roles now
                 (with_header (scheme' ++ " " ++ rest) req))
        /\ user (fst (verifyToken roles now
                        (with_header (scheme ++ " " ++ rest) req)))
           = user (fst (verifyToken roles now
                          (with_header (scheme' ++ " " ++ rest) req))))
  /\ (forall scheme rest,
        has_space scheme = false -> first_piece rest = "" ->
        snd (verifyToken roles now (with_header (scheme ++ " " ++ rest) req))
        = Ok (Respond no_token))
  /\ (forall header,
        has_space header = false ->
        token_of (with_header header req) = None
        /\ snd (verifyToken roles now (with_header header req))
           = Ok (Respond no_token))
  /\ (authorization req = None ->
      snd (verifyToken roles now req) = Ok (Respond no_token))
  /\ (forall t more,
        has_space t = false ->
        first_piece t = t /\ first_piece (t ++ " " ++ more) = t).
Proof.
  assert (Htok : forall scheme rest,
             has_space scheme = false ->
             token_of (with_header (scheme ++ " " ++ rest) req)
             = Some (first_piece rest)).
  { intros scheme rest H. unfold token_of. simpl.
    now apply index_1_append. }
  split; [exact Htok|]. split; [|split; [|split; [|split]]].
  - intros scheme scheme' rest H H'.
    destruct (verifyToken_same_token roles now
                (with_header (scheme ++ " " ++ rest) req)
                (with_header (scheme' ++ " " ++ rest) req)) as [H1 H2].
    { now rewrite !Htok. }
    split; [exact H1|]. now apply H2.
  - intros scheme rest H Hp.
    rewrite verifyToken_no_token; [reflexivity|].
    rewrite Htok by exact H. now rewrite Hp.
  - intros header H.
    assert (Hn : token_of (with_header header req) = None).
    { unfold token_of. simpl. now apply index_1_no_space. }
    split; [exact Hn|].
    rewrite verifyToken_no_token; [reflexivity|]. now rewrite Hn.
  - intros H. rewrite verifyToken_no_token; [reflexivity|].
    unfold token_of. now rewrite H.
  - intros t more H. split.
    + now apply first_piece_no_space.
    + now apply first_piece_append.
Qed.

End Guard.

(** C1 on the scenarios of the specification: a valid business-admin token
    against the roles of the super admin is answered 403; the same token
    against a list that names its role, and a super-admin token against a
    list that names it second, are let through with the claims bound. *)
Lemma verifyToken_decision_witness :
  verifyToken (E := Sample.environment) ["super_admin"] 0
    (Sample.request (Some "Bearer tok-admin_negocio") "" VUndefined)
  = (Sample.request (Some "Bearer tok-admin_negocio") "" Sample.admin_claims,
     Ok (Respond access_denied))
  /\ verifyToken (E := Sample.environment) ["admin_negocio"] 0
       (Sample.request (Some "Bearer tok-admin_negocio") "" VUndefined)
     = (Sample.request (Some "Bearer tok-admin_negocio") ""
          Sample.admin_claims, Ok Next)
  /\ verifyToken (E := Sample.environment) ["admin_negocio"; "super_admin"] 0
       (Sample.request (Some "Bearer tok-super_admin") "" VUndefined)
     = (Sample.request (Some "Bearer tok-super_admin") ""
          Sample.super_claims, Ok Next).
Proof.
  split; [|split].
  - destruct (verifyToken_decision (E := Sample.environment) ["super_admin"] 0
                (Sample.request (Some "Bearer tok-admin_negocio") ""
                   VUndefined)) as (_ & H & _).
    destruct (H "tok-admin_negocio" eq_refl ltac:(discriminate)) as (_ & H2).
    destruct (H2 Sample.admin_claims (VStr "admin_negocio") eq_refl eq_refl)
      as (H3 & _).
    apply H3. split; [discriminate|].
    intros s Hs [Hin|[]]. injection Hs as <-. discriminate.
  - destruct (verifyToken_decision (E := Sample.environment)
                ["admin_negocio"] 0
                (Sample.request (Some "Bearer tok-admin_negocio") ""
                   VUndefined)) as (_ & H & _).
    destruct (H "tok-admin_negocio" eq_refl ltac:(discriminate)) as (_ & H2).
    destruct (H2 Sample.admin_claims (VStr "admin_negocio") eq_refl eq_refl)
      as (_ & H3).
    apply H3. right. exists "admin_negocio". split; [reflexivity|].
    left. reflexivity.
  - destruct (verifyToken_decision (E := Sample.environment)
                ["admin_negocio"; "super_admin"] 0
                (Sample.request (Some "Bearer tok-super_admin") ""
                   VUndefined)) as (_ & H & _).
    destruct (H "tok-super_admin" eq_refl ltac:(discriminate)) as (_ & H2).
    destruct (H2 Sample.super_claims (VStr "super_admin") eq_refl eq_refl)
      as (_ & H3).
    apply H3. right. exists "super_admin". split; [reflexivity|].
    right. left. reflexivity.
Defined.

(** C7 on a tourist token and no roles. *)
Lemma verifyToken_empty_roles_witness :
  verifyToken (E := Sample.environment) [] 0
    (Sample.request (Some "Bearer tok-turista") "" VUndefined)
  = (Sample.request (Some "Bearer tok-turista") "" Sample.turista_claims,
     Ok Next).
Proof.
  apply (verifyToken_empty_roles (E := Sample.environment) 0
           (Sample.request (Some "Bearer tok-turista") "" VUndefined)
           "tok-turista" Sample.turista_claims);
    [reflexivity | discriminate | reflexivity].
Defined.

(** C9 as stated fails: with two spaces in the header value the token is
    not what follows the first space.  Here the middleware verifies
    [tok-turista] and lets the request through, while the text after the
    first space is not a token the verifier accepts. *)
Lemma token_after_first_space_counterexample :
  after_first_space "Bearer tok-turista x" = Some "tok-turista x"
  /\ token_of (Sample.request (Some "Bearer tok-turista x") "" VUndefined)
     = Some "tok-turista"
  /\ snd (verifyToken (E := Sample.environment) [] 0
            (Sample.request (Some "Bearer tok-turista x") "" VUndefined))
     = Ok Next
  /\ jwt_verify (Environment := Sample.environment) "tok-turista x"
       (JWT_SECRET (E := Sample.environment)) 0
     = Throw (JsonWebTokenError "jwt malformed").
Proof. repeat split. Qed.

(** C9 on four header values: another scheme word, a second space, an
    empty token and no space at all. *)
Lemma token_is_second_piece_witness :
  token_of (with_header ("Basic" ++ " " ++ "tok-turista x")
              (Sample.request None "" VUndefined))
  = Some "tok-turista"
  /\ snd (verifyToken (E := Sample.environment) ["turista"] 0
            (with_header ("Basic" ++ " " ++ "tok-turista")
               (Sample.request None "" VUndefined)))
     = snd (verifyToken (E := Sample.environment) ["turista"] 0
              (with_header ("Bearer" ++ " " ++ "tok-turista")
                 (Sample.request None "" VUndefined)))
  /\ snd (verifyToken (E := Sample.environment) ["turista"] 0
            (with_header ("Bearer" ++ " " ++ "")
               (Sample.request None "" VUndefined)))
     = Ok (Respond no_token)
  /\ snd (verifyToken (E := Sample.environment) ["turista"] 0
            (with_header "tok-turista" (Sample.request None "" VUndefined)))
     = Ok (Respond no_token).
Proof.
  destruct (token_is_second_piece (E := Sample.environment) ["turista"] 0
              (Sample.request None "" VUndefined))
    as (H1 & H2 & H3 & H4 & _ & _).
  split; [exact (H1 "Basic" "tok-turista x" eq_refl)|].
  split; [exact (proj1 (H2 "Basic" "Bearer" "tok-turista" eq_refl eq_refl))|].
  split; [exact (H3 "Bearer" "" eq_refl eq_refl)|].
  exact (proj2 (H4 "tok-turista" eq_refl)).
Defined.

(* ===================================================================== *)
(** * The ownership test *)
(* ===================================================================== *)

Section Ownership.

Context {E : Environment}.

Lemma put_negocios_id_admin (req : Request) (body : Value) (p : Pool)
  (negocio_id : Value) (same : bool) :
  is_business_admin (user req) negocio_id ->
  loosely_equal_string negocio_id (params_id req) = Ok same ->
  put_negocios_id req body p =
  if same then update_step req body p else (p, Ok not_your_business).
Proof.
  intros [Ht Hn] Hs.
  unfold put_negocios_id, update_step, try_catch, bind, lift; cbv beta iota.
  rewrite Ht. cbn [strict_equal_string String.eqb Ascii.eqb Bool.eqb].
  rewrite Hn, Hs. now destruct same.
Qed.

Lemma put_negocios_id_other (req : Request) (body : Value) (p : Pool)
  (tipo : Value) :
  get_property (user req) "tipo" = Ok tipo ->
  strict_equal_string tipo "admin_negocio" = false ->
  put_negocios_id req body p = update_step req body p.
Proof.
  intros Ht Hs.
  unfold put_negocios_id, update_step, try_catch, bind, lift; cbv beta iota.
  now rewrite Ht, Hs.
Qed.

(** Every caller the middleware of the route lets through is a business
    admin or a super admin, and the handler runs on the request the
    middleware leaves. *)
Lemma route_put_negocios_id_callers (now : Z) (req req' : Request) :
  verifyToken ["admin_negocio"; "super_admin"] now req = (req', Ok Next) ->
  (get_property (user req') "tipo" = Ok (VStr "admin_negocio")
   \/ is_super_admin (user req'))
  /\ forall body p,
       route_put_negocios_id now req body p = put_negocios_id req' body p.
Proof.
  intros H. split.
  2:{ intros body p. unfold route_put_negocios_id. now rewrite H. }
  revert H. unfold verifyToken, bind, reads; cbv beta iota.
  destruct (token_of req) as [t|]; [|discriminate].
  destruct (falsy_text (Some t)); [discriminate|].
  unfold try_catch, lift, modify.
  destruct (jwt_verify t JWT_SECRET now) as [decoded|e]; [|discriminate].
  cbn [List.length].
  destruct (get_property decoded "tipo") as [tipo|e] eqn:Ht;
    [|discriminate].
  cbv beta iota. cbn [Z.of_nat Z.ltb Z.compare].
  destruct (includes ["admin_negocio"; "super_admin"] tipo) eqn:Hi;
    [|discriminate].
  intros H. injection H as <-. cbn [user set_user].
  unfold is_super_admin. rewrite Ht.
  unfold includes in Hi. cbn [existsb] in Hi.
  destruct tipo as [| |b|x|s|fields]; try discriminate.
  cbn [strict_equal_string] in Hi.
  destruct (String.eqb_spec s "admin_negocio") as [->|_]; [now left|].
  destruct (String.eqb_spec s "super_admin") as [->|_]; [now right|].
  discriminate.
Qed.

(** The update never answers 403. *)
Lemma update_step_status (req : Request) (body : Value) (p : Pool) :
  exists p' r, update_step req body p = (p', Ok r)
               /\ (status r = 200 \/ status r = 500).
Proof.
  unfold update_step, try_catch, bind, execute.
  destruct (faults p) as [|[] later]; cbn [tl].
  - destruct (update_negocios body (params_id req) (db p)) as [[d []]|e];
      eexists; eexists; (split; [reflexivity|]); cbn; auto.
  - eexists; eexists; (split; [reflexivity|]); cbn; auto.
  - destruct (update_negocios body (params_id req) (db p)) as [[d []]|e];
      eexists; eexists; (split; [reflexivity|]); cbn; auto.
Qed.

(** C2. On PUT /api/negocios/:id a business admin bound to business [n] who
    targets business [m] goes on to the update exactly when [n = m] and is
    answered 403 otherwise; a super admin goes on to the update whatever
    the target is.  Ids are integers a JavaScript number holds exactly,
    and the target is written in decimal in the path. *)
Theorem ownership_check (req : Request) (body : Value) (p : Pool) :
  (forall n m,
      is_business_admin (user req) (VNum (of_Z n)) ->
      safe_integer n -> safe_integer m ->
      params_id req = decimal_string m ->
      (n = m -> put_negocios_id req body p = update_step req body p)
      /\ (n <> m -> put_negocios_id req body p = (p, Ok not_your_business)))
  /\ (is_super_admin (user req) ->
      put_negocios_id req body p = update_step req body p)
  /\ update_step req body p <> (p, Ok not_your_business).
Proof.
  split; [|split].
  - intros n m Hu Hn Hm Hid.
    pose proof (put_negocios_id_admin req body p (VNum (of_Z n))
                  (number_equal (of_Z n) (of_Z m)) Hu) as H.
    rewrite Hid in H. cbn [loosely_equal_string] in H.
    rewrite StringToNumber_decimal_string in H. specialize (H eq_refl).
    pose proof (of_Z_equal_iff n m Hn Hm) as Heq.
    destruct (number_equal (of_Z n) (of_Z m)).
    + split; [intros _; exact H|]. intros Hne. now destruct Hne; apply Heq.
    + split; [|intros _; exact H]. intros Hnm. apply Heq in Hnm. discriminate.
  - intros Hs. now apply (put_negocios_id_other req body p (VStr "super_admin")).
  - destruct (update_step_status req body p) as (p' & r & Hr & Hst).
    rewrite Hr. intros Habs. inversion Habs; subst.
    cbn in Hst. destruct Hst; discriminate.
Qed.

(** C10. The comparison of the handler is the loose one: for a business
    admin whose [negocio_id] is the number [x], a path id is let through
    exactly when the number it denotes equals [x]; so the text 5 passes
    against the number 5, which the strict comparison keeps apart. *)
Theorem ownership_is_loose_equality (req : Request) (body : Value) (p : Pool)
  (x : Number) :
  is_business_admin (user req) (VNum x) ->
  (number_equal x (StringToNumber (params_id req)) = true ->
   put_negocios_id req body p = update_step req body p)
  /\ (number_equal x (StringToNumber (params_id req)) = false ->
      put_negocios_id req body p = (p, Ok not_your_business))
  /\ (x = of_Z 5 -> params_id req = "5" ->
      put_negocios_id req body p = update_step req body p
      /\ strict_equal_string (VNum x) (params_id req) = false).
Proof.
  intros Hu.
  pose proof (put_negocios_id_admin req body p (VNum x)
                (number_equal x (StringToNumber (params_id req))) Hu eq_refl)
    as H.
  split; [|split].
  - intros Hq. now rewrite Hq in H.
  - intros Hq. now rewrite Hq in H.
  - intros -> Hid. rewrite Hid in H. split; [exact H|reflexivity].
Qed.

End Ownership.

(** C2 on the scenario of the specification: the admin of business 5 on
    business 5 and on business 6, and a super admin on business 6. *)
Lemma ownership_check_witness :
  put_negocios_id (E := Sample.environment)
    (Sample.request None (decimal_string 5) Sample.admin_claims) VNull
    Sample.pool
  = update_step (E := Sample.environment)
      (Sample.request None (decimal_string 5) Sample.admin_claims) VNull
      Sample.pool
  /\ put_negocios_id (E := Sample.environment)
       (Sample.request None (decimal_string 6) Sample.admin_claims) VNull
       Sample.pool
     = (Sample.pool, Ok not_your_business)
  /\ put_negocios_id (E := Sample.environment)
       (Sample.request None (decimal_string 6) Sample.super_claims) VNull
       Sample.pool
     = update_step (E := Sample.environment)
         (Sample.request None (decimal_string 6) Sample.super_claims) VNull
         Sample.pool.
Proof.
  assert (Hs : forall z, Z.abs z < 2 ^ 53 -> safe_integer z) by (intros z H; exact H).
  split; [|split].
  - refine (proj1 (proj1 (ownership_check (E := Sample.environment)
                     (Sample.request None (decimal_string 5)
                        Sample.admin_claims) VNull Sample.pool)
                     5 5 _ _ _ eq_refl) eq_refl).
    + split; reflexivity.
    + apply Hs; vm_compute; reflexivity.
    + apply Hs; vm_compute; reflexivity.
  - refine (proj2 (proj1 (ownership_check (E := Sample.environment)
                     (Sample.request None (decimal_string 6)
                        Sample.admin_claims) VNull Sample.pool)
                     5 6 _ _ _ eq_refl) _).
    + split; reflexivity.
    + apply Hs; vm_compute; reflexivity.
    + apply Hs; vm_compute; reflexivity.
    + discriminate.
  - refine (proj1 (proj2 (ownership_check (E := Sample.environment)
                     (Sample.request None (decimal_string 6)
                        Sample.super_claims) VNull Sample.pool)) _).
    reflexivity.
Defined.

(** C10 on three path ids for the admin of business 5: the decimal text,
    a hexadecimal text between spaces, and a word. *)
Lemma ownership_is_loose_equality_witness :
  put_negocios_id (E := Sample.environment)
    (Sample.request None "5" Sample.admin_claims) VNull Sample.pool
  = update_step (E := Sample.environment)
      (Sample.request None "5" Sample.admin_claims) VNull Sample.pool
  /\ put_negocios_id (E := Sample.environment)
       (Sample.request None " 0x5 " Sample.admin_claims) VNull Sample.pool
     = update_step (E := Sample.environment)
         (Sample.request None " 0x5 " Sample.admin_claims) VNull Sample.pool
  /\ put_negocios_id (E := Sample.environment)
       (Sample.request None "cinco" Sample.admin_claims) VNull Sample.pool
     = (Sample.pool, Ok not_your_business).
Proof.
  split; [|split].
  - refine (proj1 (proj2 (proj2 (ownership_is_loose_equality
                     (E := Sample.environment)
                     (Sample.request None "5" Sample.admin_claims) VNull
                     Sample.pool (of_Z 5) _)) eq_refl eq_refl)).
    split; reflexivity.
  - refine (proj1 (ownership_is_loose_equality (E := Sample.environment)
                     (Sample.request None " 0x5 " Sample.admin_claims) VNull
                     Sample.pool (of_Z 5) _) _).
    + split; reflexivity.
    + vm_compute; reflexivity.
  - refine (proj1 (proj2 (ownership_is_loose_equality
                     (E := Sample.environment)
                     (Sample.request None "cinco" Sample.admin_claims) VNull
                     Sample.pool (of_Z 5) _)) _).
    + split; reflexivity.
    + vm_compute; reflexivity.
Defined.

(* ===================================================================== *)
(** * Login and registration *)
(* ===================================================================== *)

Section Authenticator.

Context {E : Environment}.

Lemma execute_ok {A : Type} (stmt : Database -> Result (Database * A))
  (p : Pool) (d : Database) (a : A) :
  fails_next p = false -> stmt (db p) = Ok (d, a) ->
  execute stmt p = (advanced d p, Ok a).
Proof.
  unfold fails_next, execute, advanced. intros Hf Hs.
  destruct (faults p) as [|[] later]; cbn in Hf; try discriminate;
    now rewrite Hs.
Qed.

Lemma execute_fault {A : Type} (stmt : Database -> Result (Database * A))
  (p : Pool) :
  fails_next p = true ->
  execute stmt p = (spent p, Throw (DriverError "ECONNREFUSED")).
Proof.
  unfold fails_next, execute, spent. intros Hf.
  destruct (faults p) as [|[] later]; cbn in Hf; try discriminate.
  reflexivity.
Qed.

Lemma not_activo (estado : string) :
  estado <> "activo" -> negb (String.eqb estado "activo") = true.
Proof. intros H. apply negb_true_iff. now apply String.eqb_neq. Qed.

Ltac run_login :=
  unfold auth_turista_login, auth_admin_login, auth_super_admin_login,
    auth_turista_register, try_catch, bind; cbv beta iota.

(** ** Tourist login *)

Lemma turista_unknown (email password : string) (now : Z) (p : Pool) :
  fails_next p = false ->
  select_turistas email (db p) = Ok (db p, []) ->
  auth_turista_login email password now p = (spent p, Ok invalid_credentials).
Proof.
  intros Hf Hs. run_login. now rewrite (execute_ok _ p (db p) [] Hf Hs).
Qed.

Lemma turista_inactive (email password : string) (now : Z) (p : Pool)
  (user : Turista.row) (rest : list Turista.row) :
  fails_next p = false ->
  select_turistas email (db p) = Ok (db p, user :: rest) ->
  Turista.estado user <> "activo" ->
  auth_turista_login email password now p = (spent p, Ok inactive_account).
Proof.
  intros Hf Hs He. run_login.
  rewrite (execute_ok _ p (db p) (user :: rest) Hf Hs).
  now rewrite (not_activo _ He).
Qed.

Lemma turista_wrong_secret (email password : string) (now : Z) (p : Pool)
  (user : Turista.row) (rest : list Turista.row) :
  fails_next p = false ->
  select_turistas email (db p) = Ok (db p, user :: rest) ->
  Turista.estado user = "activo" ->
  bcrypt_compare password (Turista.password_hash user) = false ->
  auth_turista_login email password now p = (spent p, Ok invalid_credentials).
Proof.
  intros Hf Hs He Hc. run_login.
  rewrite (execute_ok _ p (db p) (user :: rest) Hf Hs).
  now rewrite He, Hc.
Qed.

Lemma turista_touch_fails (email password : string) (now : Z) (p : Pool)
  (user : Turista.row) (rest : list Turista.row) :
  fails_next p = false ->
  select_turistas email (db p) = Ok (db p, user :: rest) ->
  Turista.estado user = "activo" ->
  bcrypt_compare password (Turista.password_hash user) = true ->
  fails_next (spent p) = true ->
  auth_turista_login email password now p
  = (spent (spent p), Ok internal_error).
Proof.
  intros Hf Hs He Hc Hf2. run_login.
  rewrite (execute_ok _ p (db p) (user :: rest) Hf Hs).
  rewrite He, Hc. cbn [String.eqb Ascii.eqb Bool.eqb negb].
  change (advanced (db p) p) with (spent p).
  now rewrite (execute_fault _ (spent p) Hf2).
Qed.

Lemma turista_success (email password : string) (now : Z) (p : Pool)
  (user : Turista.row) (rest : list Turista.row) :
  fails_next p = false ->
  select_turistas email (db p) = Ok (db p, user :: rest) ->
  Turista.estado user = "activo" ->
  bcrypt_compare password (Turista.password_hash user) = true ->
  fails_next (spent p) = false ->
  exists d,
    touch_turista (Turista.id user) now (db p) = Ok (d, tt)
    /\ auth_turista_login email password now p
       = (advanced d (spent p),
          Ok (login_ok (turista_token user now) (turista_profile user))).
Proof.
  intros Hf Hs He Hc Hf2. eexists. split; [reflexivity|]. run_login.
  rewrite (execute_ok _ p (db p) (user :: rest) Hf Hs).
  rewrite He, Hc. cbn [String.eqb Ascii.eqb Bool.eqb negb].
  change (advanced (db p) p) with (spent p).
  now rewrite (execute_ok _ (spent p) _ tt Hf2 eq_refl).
Qed.

(** ** Business admin login *)

Lemma admin_unknown (email password : string) (now : Z) (p : Pool) :
  fails_next p = false ->
  select_administradores email (db p) = Ok (db p, []) ->
  auth_admin_login email password now p = (spent p, Ok invalid_credentials).
Proof.
  intros Hf Hs. run_login. now rewrite (execute_ok _ p (db p) [] Hf Hs).
Qed.

Lemma admin_inactive (email password : string) (now : Z) (p : Pool)
  (user : AdminNegocio.row) (nombre_negocio : string)
  (rest : list (AdminNegocio.row * string)) :
  fails_next p = false ->
  select_administradores email (db p)
  = Ok (db p, (user, nombre_negocio) :: rest) ->
  AdminNegocio.estado user <> "activo" ->
  auth_admin_login email password now p = (spent p, Ok inactive_account).
Proof.
  intros Hf Hs He. run_login.
  rewrite (execute_ok _ p (db p) _ Hf Hs).
  now rewrite (not_activo _ He).
Qed.

Lemma admin_wrong_secret (email password : string) (now : Z) (p : Pool)
  (user : AdminNegocio.row) (nombre_negocio : string)
  (rest : list (AdminNegocio.row * string)) :
  fails_next p = false ->
  select_administradores email (db p)
  = Ok (db p, (user, nombre_negocio) :: rest) ->
  AdminNegocio.estado user = "activo" ->
  bcrypt_compare password (AdminNegocio.password_hash user) = false ->
  auth_admin_login email password now p = (spent p, Ok invalid_credentials).
Proof.
  intros Hf Hs He Hc. run_login.
  rewrite (execute_ok _ p (db p) _ Hf Hs).
  now rewrite He, Hc.
Qed.

Lemma admin_touch_fails (email password : string) (now : Z) (p : Pool)
  (user : AdminNegocio.row) (nombre_negocio : string)
  (rest : list (AdminNegocio.row * string)) :
  fails_next p = false ->
  select_administradores email (db p)
  = Ok (db p, (user, nombre_negocio) :: rest) ->
  AdminNegocio.estado user = "activo" ->
  bcrypt_compare password (AdminNegocio.password_hash user) = true ->
  fails_next (spent p) = true ->
  auth_admin_login email password now p = (spent (spent p), Ok internal_error).
Proof.
  intros Hf Hs He Hc Hf2. run_login.
  rewrite (execute_ok _ p (db p) _ Hf Hs).
  rewrite He, Hc. cbn [String.eqb Ascii.eqb Bool.eqb negb].
  change (advanced (db p) p) with (spent p).
  now rewrite (execute_fault _ (spent p) Hf2).
Qed.

Lemma admin_success (email password : string) (now : Z) (p : Pool)
  (user : AdminNegocio.row) (nombre_negocio : string)
  (rest : list (AdminNegocio.row * string)) :
  fails_next p = false ->
  select_administradores email (db p)
  = Ok (db p, (user, nombre_negocio) :: rest) ->
  AdminNegocio.estado user = "activo" ->
  bcrypt_compare password (AdminNegocio.password_hash user) = true ->
  fails_next (spent p) = false ->
  exists d,
    touch_administrador (AdminNegocio.id user) now (db p) = Ok (d, tt)
    /\ auth_admin_login email password now p
       = (advanced d (spent p),
          Ok (login_ok (admin_token user now)
                (admin_profile user nombre_negocio))).
Proof.
  intros Hf Hs He Hc Hf2. eexists. split; [reflexivity|]. run_login.
  rewrite (execute_ok _ p (db p) _ Hf Hs).
  rewrite He, Hc. cbn [String.eqb Ascii.eqb Bool.eqb negb].
  change (advanced (db p) p) with (spent p).
  now rewrite (execute_ok _ (spent p) _ tt Hf2 eq_refl).
Qed.

(** ** Super admin login *)

Lemma super_unknown (usuario password : string) (now : Z) (p : Pool) :
  fails_next p = false ->
  select_super_administradores usuario (db p) = Ok (db p, []) ->
  auth_super_admin_login usuario password now p
  = (spent p, Ok invalid_credentials).
Proof.
  intros Hf Hs. run_login. now rewrite (execute_ok _ p (db p) [] Hf Hs).
Qed.

Lemma super_wrong_secret (usuario password : string) (now : Z) (p : Pool)
  (user : SuperAdmin.row) (rest : list SuperAdmin.row) :
  fails_next p = false ->
  select_super_administradores usuario (db p) = Ok (db p, user :: rest) ->
  bcrypt_compare password (SuperAdmin.password_hash user) = false ->
  auth_super_admin_login usuario password now p
  = (spent p, Ok invalid_credentials).
Proof.
  intros Hf Hs Hc. run_login.
  rewrite (execute_ok _ p (db p) _ Hf Hs).
  now rewrite Hc.
Qed.

Lemma super_touch_fails (usuario password : string) (now : Z) (p : Pool)
  (user : SuperAdmin.row) (rest : list SuperAdmin.row) :
  fails_next p = false ->
  select_super_administradores usuario (db p) = Ok (db p, user :: rest) ->
  bcrypt_compare password (SuperAdmin.password_hash user) = true ->
  fails_next (spent p) = true ->
  auth_super_admin_login usuario password now p
  = (spent (spent p), Ok internal_error).
Proof.
  intros Hf Hs Hc Hf2. run_login.
  rewrite (execute_ok _ p (db p) _ Hf Hs).
  rewrite Hc. cbn [negb].
  change (advanced (db p) p) with (spent p).
  now rewrite (execute_fault _ (spent p) Hf2).
Qed.

Lemma super_success (usuario password : string) (now : Z) (p : Pool)
  (user : SuperAdmin.row) (rest : list SuperAdmin.row) :
  fails_next p = false ->
  select_super_administradores usuario (db p) = Ok (db p, user :: rest) ->
  bcrypt_compare password (SuperAdmin.password_hash user) = true ->
  fails_next (spent p) = false ->
  exists d,
    touch_super_administrador (SuperAdmin.id user) now (db p) = Ok (d, tt)
    /\ auth_super_admin_login usuario password now p
       = (advanced d (spent p),
          Ok (login_ok (super_token user now) (super_profile user))).
Proof.
  intros Hf Hs Hc Hf2. eexists. split; [reflexivity|]. run_login.
  rewrite (execute_ok _ p (db p) _ Hf Hs).
  rewrite Hc. cbn [negb].
  change (advanced (db p) p) with (spent p).
  now rewrite (execute_ok _ (spent p) _ tt Hf2 eq_refl).
Qed.

(** The lookup of the super admin login only returns active rows. *)
Lemma select_super_active (usuario : string) (d : Database)
  (rows : list SuperAdmin.row) :
  select_super_administradores usuario d = Ok (d, rows) ->
  forall r, In r rows -> sql_text_eqb (SuperAdmin.estado r) "activo" = true.
Proof.
  unfold select_super_administradores. intros H r Hr.
  injection H as <-. apply filter_In in Hr. destruct Hr as [_ Hr].
  now apply andb_true_iff in Hr.
Qed.


(** ** Registration *)

Lemma existing_email (email : string) (rows : list Turista.row) :
  existsb (fun r => sql_text_eqb (Turista.email r) email) rows
  = (0 <? Z.of_nat (List.length
                      (filter (fun r => sql_text_eqb (Turista.email r) email)
                              rows))).
Proof.
  induction rows as [|r rows IH]; [reflexivity|].
  cbn [existsb filter].
  destruct (sql_text_eqb (Turista.email r) email); cbn [orb]; [|exact IH].
  cbn [List.length]. symmetry. apply Z.ltb_lt. lia.
Qed.

Lemma register_duplicate (nombre apellido email password : string)
  (telefono pais_origen ciudad_origen : Bind) (salt : string) (p : Pool) :
  fails_next p = false ->
  existsb (fun r => sql_text_eqb (Turista.email r) email) (turistas (db p))
  = true ->
  auth_turista_register nombre apellido email password telefono pais_origen
    ciudad_origen salt p
  = (spent p, Ok email_taken).
Proof.
  intros Hf Hex. run_login.
  rewrite (execute_ok _ p (db p) _ Hf eq_refl).
  rewrite existing_email in Hex. now rewrite Hex.
Qed.

Lemma register_fresh (nombre apellido email password : string)
  (telefono pais_origen ciudad_origen : Bind) (salt : string) (p : Pool)
  (d : Database) (insertId : Z) :
  fails_next p = false ->
  existsb (fun r => sql_text_eqb (Turista.email r) email) (turistas (db p))
  = false ->
  fails_next (spent p) = false ->
  insert_turista nombre apellido email (bcrypt_hash password 10 salt)
    telefono pais_origen ciudad_origen (db p) = Ok (d, insertId) ->
  auth_turista_register nombre apellido email password telefono pais_origen
    ciudad_origen salt p
  = (advanced d (spent p),
     Ok (json 201
           [("success", VBool true);
            ("message", VStr "Turista registrado exitosamente");
            ("data", VObj [("id", VNum (of_Z insertId))])])).
Proof.
  intros Hf Hex Hf2 Hins. run_login.
  rewrite (execute_ok _ p (db p) _ Hf eq_refl).
  rewrite existing_email in Hex. rewrite Hex.
  change (advanced (db p) p) with (spent p).
  now rewrite (execute_ok _ (spent p) d insertId Hf2 Hins).
Qed.

(** What an accepted INSERT leaves in the table. *)
Lemma insert_turista_row (nombre apellido email hashed : string)
  (telefono pais_origen ciudad_origen : Bind) (d d' : Database)
  (insertId : Z) :
  insert_turista nombre apellido email hashed telefono pais_origen
    ciudad_origen d = Ok (d', insertId) ->
  insertId = turistas_auto_increment d
  /\ exists row,
       turistas d' = (turistas d ++ [row])%list
       /\ Turista.id row = insertId
       /\ Turista.email row = email
       /\ Turista.password_hash row = hashed
       /\ Turista.estado row = "activo".
Proof.
  unfold insert_turista.
  destruct (is_undefined telefono || is_undefined pais_origen
            || is_undefined ciudad_origen)%bool; [discriminate|].
  destruct (existsb _ _); [discriminate|].
  intros H. injection H as <- <-. split; [reflexivity|].
  eexists. split; [reflexivity|]. cbn. auto.
Qed.








(** C4. In the three logins an identifier the lookup does not find and a
    wrong secret for an active principal get the same answer,
    [Credenciales inválidas]; the lookup comes first, the status second
    (a row that is not active is answered [Cuenta inactiva] whatever the
    secret is; for the super admin the status is part of the lookup), the
    secret last. *)
Theorem invalid_credentials_login (identifier password : string) (now : Z)
  (p : Pool) :
  fails_next p = false ->
  ((select_turistas identifier (db p) = Ok (db p, []) ->
    auth_turista_login identifier password now p
    = (spent p, Ok invalid_credentials))
   /\ (forall user rest,
         select_turistas identifier (db p) = Ok (db p, user :: rest) ->
         (Turista.estado user <> "activo" ->
          auth_turista_login identifier password now p
          = (spent p, Ok inactive_account))
         /\ (Turista.estado user = "activo" ->
             bcrypt_compare password (Turista.password_hash user) = false ->
             auth_turista_login identifier password now p
             = (spent p, Ok invalid_credentials))))
  /\ ((select_administradores identifier (db p) = Ok (db p, []) ->
       auth_admin_login identifier password now p
       = (spent p, Ok invalid_credentials))
      /\ (forall user nombre_negocio rest,
            select_administradores identifier (db p)
            = Ok (db p, (user, nombre_negocio) :: rest) ->
            (AdminNegocio.estado user <> "activo" ->
             auth_admin_login identifier password now p
             = (spent p, Ok inactive_account))
            /\ (AdminNegocio.estado user = "activo" ->
                bcrypt_compare password (AdminNegocio.password_hash user)
                = false ->
                auth_admin_login identifier password now p
                = (spent p, Ok invalid_credentials))))
  /\ ((select_super_administradores identifier (db p) = Ok (db p, []) ->
       auth_super_admin_login identifier password now p
       = (spent p, Ok invalid_credentials))
      /\ (forall user rest,
            select_super_administradores identifier (db p)
            = Ok (db p, user :: rest) ->
            sql_text_eqb (SuperAdmin.estado user) "activo" = true
            /\ (bcrypt_compare password (SuperAdmin.password_hash user)
                = false ->
                auth_super_admin_login identifier password now p
                = (spent p, Ok invalid_credentials)))).
Proof.
  intros Hf. split; [|split]; split.
  - now apply turista_unknown.
  - intros user rest Hs. split.
    + now apply (turista_inactive _ _ _ _ user rest).
    + now apply (turista_wrong_secret _ _ _ _ user rest).
  - now apply admin_unknown.
  - intros user nombre_negocio rest Hs. split.
    + now apply (admin_inactive _ _ _ _ user nombre_negocio rest).
    + now apply (admin_wrong_secret _ _ _ _ user nombre_negocio rest).
  - now apply super_unknown.
  - intros user rest Hs. split.
    + apply (select_super_active identifier (db p) (user :: rest) Hs).
      now left.
    + now apply (super_wrong_secret _ _ _ _ user rest).
Qed.

(** C5, as the code has it.  In the three logins the update of the last
    connection is awaited inside the [try] block: when it fails, a login
    with the right secret on an active principal is answered 500 and no
    token is returned; the success answer with the token is given only
    when the update goes through. *)
Theorem last_seen_failure_fails_login (identifier password : string) (now : Z)
  (p : Pool) :
  fails_next p = false ->
  (forall user rest,
      select_turistas identifier (db p) = Ok (db p, user :: rest) ->
      Turista.estado user = "activo" ->
      bcrypt_compare password (Turista.password_hash user) = true ->
      (fails_next (spent p) = true ->
       auth_turista_login identifier password now p
       = (spent (spent p), Ok internal_error))
      /\ (fails_next (spent p) = false ->
          snd (auth_turista_login identifier password now p)
          = Ok (login_ok (turista_token user now) (turista_profile user))))
  /\ (forall user nombre_negocio rest,
        select_administradores identifier (db p)
        = Ok (db p, (user, nombre_negocio) :: rest) ->
        AdminNegocio.estado user = "activo" ->
        bcrypt_compare password (AdminNegocio.password_hash user) = true ->
        (fails_next (spent p) = true ->
         auth_admin_login identifier password now p
         = (spent (spent p), Ok internal_error))
        /\ (fails_next (spent p) = false ->
            snd (auth_admin_login identifier password now p)
            = Ok (login_ok (admin_token user now)
                    (admin_profile user nombre_negocio))))
  /\ (forall user rest,
        select_super_administradores identifier (db p)
        = Ok (db p, user :: rest) ->
        bcrypt_compare password (SuperAdmin.password_hash user) = true ->
        (fails_next (spent p) = true ->
         auth_super_admin_login identifier password now p
         = (spent (spent p), Ok internal_error))
        /\ (fails_next (spent p) = false ->
            snd (auth_super_admin_login identifier password now p)
            = Ok (login_ok (super_token user now) (super_profile user)))).
Proof.
  intros Hf. split; [|split].
  - intros user rest Hs He Hc. split; intros Hf2.
    + now apply (turista_touch_fails _ _ _ _ user rest).
    + destruct (turista_success _ password now p user rest Hf Hs He Hc Hf2)
        as (d & _ & H).
      now rewrite H.
  - intros user nombre_negocio rest Hs He Hc. split; intros Hf2.
    + now apply (admin_touch_fails _ _ _ _ user nombre_negocio rest).
    + destruct (admin_success _ password now p user nombre_negocio rest
                  Hf Hs He Hc Hf2) as (d & _ & H).
      now rewrite H.
  - intros user rest Hs Hc. split; intros Hf2.
    + now apply (super_touch_fails _ _ _ _ user rest).
    + destruct (super_success _ password now p user rest Hf Hs Hc Hf2)
        as (d & _ & H).
      now rewrite H.
Qed.

(** The connection failing on the lookup. *)
Lemma register_lookup_fails (nombre apellido email password : string)
  (telefono pais_origen ciudad_origen : Bind) (salt : string) (p : Pool) :
  fails_next p = true ->
  auth_turista_register nombre apellido email password telefono pais_origen
    ciudad_origen salt p
  = (spent p, Ok internal_error).
Proof.
  intros Hf. run_login. now rewrite (execute_fault _ p Hf).
Qed.

(** The connection failing on the INSERT. *)
Lemma register_insert_fails (nombre apellido email password : string)
  (telefono pais_origen ciudad_origen : Bind) (salt : string) (p : Pool) :
  fails_next p = false ->
  existsb (fun r => sql_text_eqb (Turista.email r) email) (turistas (db p))
  = false ->
  fails_next (spent p) = true ->
  auth_turista_register nombre apellido email password telefono pais_origen
    ciudad_origen salt p
  = (spent (spent p), Ok internal_error).
Proof.
  intros Hf Hex Hf2. run_login.
  rewrite (execute_ok _ p (db p) _ Hf eq_refl).
  rewrite existing_email in Hex. rewrite Hex.
  change (advanced (db p) p) with (spent p).
  now rewrite (execute_fault _ (spent p) Hf2).
Qed.

(** The INSERT is accepted when the email is new and no bind parameter is
    [undefined]; the generated id is the counter of the table. *)
Lemma insert_turista_accepted (nombre apellido email hashed : string)
  (telefono pais_origen ciudad_origen : Bind) (d : Database) :
  is_undefined telefono = false ->
  is_undefined pais_origen = false ->
  is_undefined ciudad_origen = false ->
  existsb (fun r => sql_text_eqb (Turista.email r) email) (turistas d)
  = false ->
  exists d',
    insert_turista nombre apellido email hashed telefono pais_origen
      ciudad_origen d = Ok (d', turistas_auto_increment d).
Proof.
  intros Ht Hp Hc Hex. unfold insert_turista.
  rewrite Ht, Hp, Hc, Hex. cbn [orb]. eauto.
Qed.

(** C8, as the code has it.  Registration of a tourist: when the connection
    fails on the lookup or on the INSERT the answer is the internal error
    and the table is left as it was; when the lookup is answered and the
    email is already in the table the answer is [El email ya está
    registrado] and the table is left as it was; when the email is new, the
    connection holds and each of [telefono], [pais_origen] and
    [ciudad_origen] is supplied (a text or [null]), the secret is hashed with
    cost 10, the table gains one row with that email, that hash, the
    generated id and the status [activo], and the answer is 201 with the
    id. *)
Theorem register_turista_outcomes (nombre apellido email password : string)
  (telefono pais_origen ciudad_origen : Bind) (salt : string) (p : Pool) :
  (fails_next p = true ->
   auth_turista_register nombre apellido email password telefono pais_origen
     ciudad_origen salt p
   = (spent p, Ok internal_error)
   /\ db (spent p) = db p)
  /\ (fails_next p = false ->
      (existsb (fun r => sql_text_eqb (Turista.email r) email)
         (turistas (db p)) = true ->
       auth_turista_register nombre apellido email password telefono
         pais_origen ciudad_origen salt p
       = (spent p, Ok email_taken)
       /\ db (spent p) = db p)
      /\ (existsb (fun r => sql_text_eqb (Turista.email r) email)
            (turistas (db p)) = false ->
          (fails_next (spent p) = true ->
           auth_turista_register nombre apellido email password telefono
             pais_origen ciudad_origen salt p
           = (spent (spent p), Ok internal_error)
           /\ db (spent (spent p)) = db p)
          /\ (fails_next (spent p) = false ->
              is_undefined telefono = false ->
              is_undefined pais_origen = false ->
              is_undefined ciudad_origen = false ->
              exists d row,
                auth_turista_register nombre apellido email password telefono
                  pais_origen ciudad_origen salt p
                = (advanced d (spent p),
                   Ok (created (turistas_auto_increment (db p))))
                /\ status (created (turistas_auto_increment (db p))) = 201
                /\ turistas d = (turistas (db p) ++ [row])%list
                /\ Turista.id row = turistas_auto_increment (db p)
                /\ Turista.email row = email
                /\ Turista.password_hash row = bcrypt_hash password 10 salt
                /\ Turista.estado row = "activo"))).
Proof.
  split.
  - intros Hf. split; [|reflexivity]. now apply register_lookup_fails.
  - intros Hf. split.
    + intros Hex. split; [|reflexivity]. now apply register_duplicate.
    + intros Hex. split.
      * intros Hf2. split; [|reflexivity]. now apply register_insert_fails.
      * intros Hf2 Ht Hp Hc.
        destruct (insert_turista_accepted nombre apellido email
                    (bcrypt_hash password 10 salt) telefono pais_origen
                    ciudad_origen (db p) Ht Hp Hc Hex) as (d & Hins).
        destruct (insert_turista_row _ _ _ _ _ _ _ _ _ _ Hins)
          as (_ & row & Hrows & Hid & Hemail & Hhash & Hestado).
        exists d, row. split; [|repeat split; assumption].
        unfold created. now apply register_fresh.
Qed.

End Authenticator.



(** C4 on an email nobody has and on a wrong secret for an active
    tourist. *)
Lemma invalid_credentials_login_witness :
  auth_turista_login (E := Sample.environment) "nobody@x.com" "wrongpass" 0
    Sample.pool
  = (Sample.pool, Ok invalid_credentials)
  /\ auth_turista_login (E := Sample.environment) "a@x.com" "wrongpass" 0
       Sample.pool
     = (Sample.pool, Ok invalid_credentials).
Proof.
  split.
  - destruct (invalid_credentials_login (E := Sample.environment)
                "nobody@x.com" "wrongpass" 0 Sample.pool eq_refl)
      as ((H & _) & _).
    apply H. reflexivity.
  - destruct (invalid_credentials_login (E := Sample.environment)
                "a@x.com" "wrongpass" 0 Sample.pool eq_refl)
      as ((_ & H) & _).
    apply (H Sample.ana []); reflexivity.
Defined.

(** C5 as stated fails: the secret is right and the account active, the
    update of the last connection fails, and the answer is the internal
    error, without a token. *)
Lemma last_seen_failure_counterexample :
  select_turistas (E := Sample.environment) "a@x.com"
    (db Sample.flaky_pool)
  = Ok (db Sample.flaky_pool, [Sample.ana])
  /\ Turista.estado Sample.ana = "activo"
  /\ bcrypt_compare (Environment := Sample.environment) "secret1"
       (Turista.password_hash Sample.ana) = true
  /\ auth_turista_login (E := Sample.environment) "a@x.com" "secret1" 0
       Sample.flaky_pool
     = (Sample.pool, Ok internal_error)
  /\ status internal_error = 500.
Proof. repeat split. Qed.

(** C5 on the same login with a connection that fails on the update and
    with one that does not. *)
Lemma last_seen_failure_fails_login_witness :
  auth_turista_login (E := Sample.environment) "a@x.com" "secret1" 0
    Sample.flaky_pool
  = (Sample.pool, Ok internal_error)
  /\ snd (auth_turista_login (E := Sample.environment) "a@x.com" "secret1" 0
            Sample.pool)
     = Ok (login_ok "tok-turista" (turista_profile Sample.ana)).
Proof.
  split.
  - destruct (last_seen_failure_fails_login (E := Sample.environment)
                "a@x.com" "secret1" 0 Sample.flaky_pool eq_refl) as (H & _).
    apply (H Sample.ana [] eq_refl eq_refl eq_refl). reflexivity.
  - destruct (last_seen_failure_fails_login (E := Sample.environment)
                "a@x.com" "secret1" 0 Sample.pool eq_refl) as (H & _).
    apply (H Sample.ana [] eq_refl eq_refl eq_refl). reflexivity.
Defined.

(** C8 as stated fails in two ways.  A registration with a new email that
    leaves [telefono] out is a request the validators accept; the driver
    refuses the [undefined] bind parameter, the answer is the internal error
    and nothing is inserted.  And with the connection down a registration
    with the email of Ana is answered the internal error, not [El email ya
    está registrado]. *)
Lemma register_turista_counterexample :
  existsb (fun r => String.eqb (Turista.email r) "n@x.com")
    (turistas Sample.database) = false
  /\ auth_turista_register (E := Sample.environment) "Nora" "Gil" "n@x.com"
       "secret9" BUndefined (BText "MX") (BText "Tuxtla") "s" Sample.pool
     = (Sample.pool, Ok internal_error)
  /\ existsb (fun r => String.eqb (Turista.email r) "a@x.com")
       (turistas Sample.database) = true
  /\ auth_turista_register (E := Sample.environment) "Ana" "Paz" "a@x.com"
       "secret1" BNull BNull BNull "s"
       {| db := Sample.database; faults := [true] |}
     = (Sample.pool, Ok internal_error)
  /\ status internal_error = 500
  /\ internal_error <> email_taken.
Proof. repeat split. discriminate. Qed.

(** The scenario of the specification: a first registration with a new
    email succeeds, a second one with the same email is refused; and a
    registration on a connection that is down is answered the internal
    error. *)
Lemma register_turista_outcomes_witness :
  (exists p',
      auth_turista_register (E := Sample.environment) "Nora" "Gil" "n@x.com"
        "secret9" BNull (BText "MX") BNull "s" Sample.pool
      = (p', Ok (created 3))
      /\ map Turista.email (turistas (db p')) = ["a@x.com"; "l@x.com"; "n@x.com"]
      /\ auth_turista_register (E := Sample.environment) "Nora" "Gil"
           "n@x.com" "secret9" BNull (BText "MX") BNull "s" p'
         = (p', Ok email_taken))
  /\ auth_turista_register (E := Sample.environment) "Nora" "Gil" "n@x.com"
       "secret9" BNull (BText "MX") BNull "s"
       {| db := Sample.database; faults := [true] |}
     = (Sample.pool, Ok internal_error)
  /\ auth_turista_register (E := Sample.environment) "Nora" "Gil" "n@x.com"
       "secret9" BNull (BText "MX") BNull "s" Sample.flaky_pool
     = (Sample.pool, Ok internal_error).
Proof.
  split; [|split].
  - destruct (register_turista_outcomes (E := Sample.environment) "Nora"
                "Gil" "n@x.com" "secret9" BNull (BText "MX") BNull "s"
                Sample.pool) as (_ & H).
    destruct (H eq_refl) as (_ & H1).
    destruct (H1 eq_refl) as (_ & H2).
    destruct (H2 eq_refl eq_refl eq_refl eq_refl)
      as (d & row & Hrun & _ & Hrows & _ & Hemail & _).
    exists (advanced d (Sample.pool)). split; [exact Hrun|]. split.
    + cbn [db advanced]. rewrite Hrows, map_app. cbn [map]. now rewrite Hemail.
    + destruct (register_turista_outcomes (E := Sample.environment) "Nora"
                  "Gil" "n@x.com" "secret9" BNull (BText "MX") BNull "s"
                  (advanced d Sample.pool)) as (_ & H3).
      destruct (H3 eq_refl) as (H4 & _).
      refine (proj1 (H4 _)).
      cbn [db advanced]. rewrite Hrows, existsb_app. cbn [existsb].
      rewrite Hemail. reflexivity.
  - destruct (register_turista_outcomes (E := Sample.environment) "Nora"
                "Gil" "n@x.com" "secret9" BNull (BText "MX") BNull "s"
                {| db := Sample.database; faults := [true] |}) as (H & _).
    exact (proj1 (H eq_refl)).
  - destruct (register_turista_outcomes (E := Sample.environment) "Nora"
                "Gil" "n@x.com" "secret9" BNull (BText "MX") BNull "s"
                Sample.flaky_pool) as (_ & H).
    destruct (H eq_refl) as (_ & H1).
    destruct (H1 eq_refl) as (H2 & _).
    exact (proj1 (H2 eq_refl)).
Defined.

(* ===================================================================== *)
(** * The Token Codec *)
(* ===================================================================== *)

Section CodecFacts.

Variable Claims : Type.
Variable serialize : Claims -> string.
Variable parse : string -> option Claims.
Variable sign : string -> string * Z * Z -> string.

Hypothesis parse_serialize : forall c, parse (serialize c) = Some c.

(** C6. A token issued for a claim set verifies to the same claim set as
    long as the clock is strictly before the issuance time plus 24 hours;
    from that instant on verification fails with [Expired]; one second
    before it, verification succeeds. *)
Theorem token_round_trip (claims : Claims) (key : string) (issued now : Z) :
  (now < issued + TokenCodec.lifetime ->
   TokenCodec.verify Claims parse sign
     (TokenCodec.issue Claims serialize sign claims key issued) key now
   = inl claims)
  /\ (issued + TokenCodec.lifetime <= now ->
      TokenCodec.verify Claims parse sign
        (TokenCodec.issue Claims serialize sign claims key issued) key now
      = inr TokenCodec.Expired)
  /\ TokenCodec.verify Claims parse sign
       (TokenCodec.issue Claims serialize sign claims key issued) key
       (issued + TokenCodec.lifetime - 1)
     = inl claims
  /\ TokenCodec.lifetime = 86400.
Proof.
  assert (H : forall t,
             TokenCodec.verify Claims parse sign
               (TokenCodec.issue Claims serialize sign claims key issued)
               key t
             = if issued + TokenCodec.lifetime <=? t
               then inr TokenCodec.Expired else inl claims).
  { intros t. unfold TokenCodec.verify, TokenCodec.issue.
    cbn [TokenCodec.payload TokenCodec.signature TokenCodec.issued_at
         TokenCodec.expiry].
    now rewrite parse_serialize, String.eqb_refl. }
  repeat split.
  - intros Hlt. rewrite H.
    destruct (Z.leb_spec (issued + TokenCodec.lifetime) now); [lia|easy].
  - intros Hle. rewrite H.
    destruct (Z.leb_spec (issued + TokenCodec.lifetime) now); [easy|lia].
  - rewrite H.
    destruct (Z.leb_spec (issued + TokenCodec.lifetime)
                (issued + TokenCodec.lifetime - 1)); [lia|easy].
Qed.

End CodecFacts.

(** C6 on a token issued at second 1000, one second before its expiry and
    at its expiry. *)
Lemma token_round_trip_witness :
  TokenCodec.verify string Some (fun key _ => key)
    (TokenCodec.issue string (fun c => c) (fun key _ => key) "turista:1"
       "k" 1000) "k" 87399
  = inl "turista:1"
  /\ TokenCodec.verify string Some (fun key _ => key)
       (TokenCodec.issue string (fun c => c) (fun key _ => key) "turista:1"
          "k" 1000) "k" 87400
     = inr TokenCodec.Expired.
Proof.
  destruct (token_round_trip string (fun c => c) Some (fun key _ => key)
              (fun c => eq_refl) "turista:1" "k" 1000 87399) as (H1 & _).
  destruct (token_round_trip string (fun c => c) Some (fun key _ => key)
              (fun c => eq_refl) "turista:1" "k" 1000 87400) as (_ & H2 & _).
  split; [apply H1; reflexivity | apply H2; discriminate].
Defined.

(* ===================================================================== *)
(** * More on the access guard and the guarded route *)
(* ===================================================================== *)

Section GuardMore.

Context {E : Environment}.

Lemma split_space_pieces (s piece : string) :
  In piece (split_space s) -> has_space piece = false.
Proof.
  revert piece. induction s as [|c r IH]; intros piece; simpl.
  - intros [<-|[]]. reflexivity.
  - destruct (Ascii.eqb c " ") eqn:Hc.
    + intros [<-|H]; [reflexivity|now apply IH].
    + destruct (split_space r) as [|first others] eqn:Hs.
      * intros [<-|[]]. simpl. now rewrite Hc.
      * intros [<-|H].
        -- simpl. rewrite Hc. apply IH. now left.
        -- apply IH. now right.
Qed.

(** X1. The text the middleware takes from the header never holds a
    space, and when it is empty the request is answered 401 (no token)
    without being verified. *)
Theorem token_of_shape (req : Request) (t : string) (roles : list string)
  (now : Z) :
  token_of req = Some t ->
  has_space t = false
  /\ (t = "" -> snd (verifyToken roles now req) = Ok (Respond no_token)).
Proof.
  intros Ht. split.
  - unfold token_of in Ht. destruct (authorization req) as [header|];
      [|discriminate].
    apply (split_space_pieces header). unfold index in Ht.
    now apply nth_error_In in Ht.
  - intros ->. rewrite verifyToken_no_token; [reflexivity|].
    now rewrite Ht.
Qed.

(** What a call of [next] tells about the request. *)
Lemma verifyToken_next_inversion (roles : list string) (now : Z)
  (req req' : Request) :
  verifyToken roles now req = (req', Ok Next) ->
  exists t decoded,
    token_of req = Some t
    /\ t <> ""
    /\ jwt_verify t JWT_SECRET now = Ok decoded
    /\ req' = set_user decoded req
    /\ (roles = []
        \/ exists tipo, get_property decoded "tipo" = Ok tipo
                        /\ includes roles tipo = true).
Proof.
  unfold verifyToken, bind, reads; cbv beta iota.
  destruct (token_of req) as [t|]; [|discriminate].
  destruct (falsy_text (Some t)) eqn:Hf; [discriminate|].
  assert (Hne : t <> "").
  { intros ->. discriminate. }
  unfold try_catch, lift, modify.
  destruct (jwt_verify t JWT_SECRET now) as [decoded|e] eqn:Hv;
    [|discriminate].
  destruct roles as [|r roles].
  - cbn. intros Hres. injection Hres as <-.
    exists t, decoded. repeat split; auto.
  - cbn [List.length].
    destruct (Z.ltb_spec 0 (Z.of_nat (S (List.length roles)))); [|lia].
    destruct (get_property decoded "tipo") as [tipo|e] eqn:Hp;
      [|discriminate].
    cbv beta iota.
    destruct (includes (r :: roles) tipo) eqn:Hi; [|discriminate].
    cbn. intros Hres. injection Hres as <-.
    exists t, decoded. repeat split; auto. right. eauto.
Qed.

(** X2. [next] is called exactly for a request whose token [jwt.verify]
    accepts and, when the list of roles is not empty, whose decoded [tipo]
    is in the list; the request handed on is the one received with the
    decoded claims as [req.user]. *)
Theorem verifyToken_next_iff (roles : list string) (now : Z)
  (req req' : Request) :
  verifyToken roles now req = (req', Ok Next)
  <-> exists t decoded,
        token_of req = Some t
        /\ t <> ""
        /\ jwt_verify t JWT_SECRET now = Ok decoded
        /\ req' = set_user decoded req
        /\ (roles = []
            \/ exists tipo, get_property decoded "tipo" = Ok tipo
                            /\ includes roles tipo = true).
Proof.
  split; [apply verifyToken_next_inversion|].
  intros (t & decoded & Ht & Hne & Hv & Hreq & Hrole). subst req'.
  destruct roles as [|r roles].
  - now apply (verifyToken_unrestricted now req t decoded).
  - destruct Hrole as [Hnil|(tipo & Hp & Hi)]; [discriminate|].
    rewrite (verifyToken_restricted (r :: roles) now req t decoded tipo)
      by (assumption || discriminate).
    now rewrite Hi.
Qed.

(** X3. Running the middleware again on the request it left gives the same
    request and the same decision. *)
Theorem verifyToken_idempotent (roles : list string) (now : Z)
  (req : Request) :
  verifyToken roles now (fst (verifyToken roles now req))
  = verifyToken roles now req.
Proof.
  unfold verifyToken, bind, reads; cbv beta iota.
  destruct (token_of req) as [t|] eqn:Ht.
  2:{ cbn. now rewrite Ht. }
  destruct (falsy_text (Some t)) eqn:Hf.
  { cbn. now rewrite Ht, Hf. }
  unfold try_catch, lift, modify.
  destruct (jwt_verify t JWT_SECRET now) as [decoded|e] eqn:Hv.
  2:{ cbn. now rewrite Ht, Hf, Hv. }
  assert (Hs : token_of (set_user decoded req) = Some t) by exact Ht.
  destruct (0 <? Z.of_nat (List.length roles)) eqn:Hl.
  - destruct (get_property decoded "tipo") as [tipo|e] eqn:Hp.
    + cbv beta iota.
      destruct (negb (includes roles tipo)) eqn:Hi; cbn [ret fst];
        rewrite Hs, Hf, Hv, Hp; cbv beta iota; now rewrite Hi.
    + cbn [ret fst]. now rewrite Hs, Hf, Hv, Hp.
  - cbn [ret fst]. now rewrite Hs, Hf, Hv.
Qed.

(** The handler leaves the data alone unless it goes on to the update. *)
Lemma put_negocios_id_cases (req : Request) (body : Value) (p : Pool) :
  (put_negocios_id req body p = (p, Ok not_your_business)
   \/ put_negocios_id req body p = (p, Ok internal_error))
  \/ (put_negocios_id req body p = update_step req body p
      /\ exists tipo,
           get_property (user req) "tipo" = Ok tipo
           /\ (strict_equal_string tipo "admin_negocio" = false
               \/ exists v,
                    get_property (user req) "negocio_id" = Ok v
                    /\ loosely_equal_string v (params_id req) = Ok true)).
Proof.
  unfold put_negocios_id, update_step, try_catch, bind, lift; cbv beta iota.
  destruct (get_property (user req) "tipo") as [tipo|e] eqn:Ht.
  2:{ left. now right. }
  destruct (strict_equal_string tipo "admin_negocio") eqn:Hs.
  2:{ right. split; [reflexivity|]. exists tipo. auto. }
  destruct (get_property (user req) "negocio_id") as [v|e] eqn:Hn.
  2:{ left. now right. }
  destruct (loosely_equal_string v (params_id req)) as [[]|e] eqn:Hl.
  - right. split; [reflexivity|]. exists tipo. split; [reflexivity|].
    right. now exists v.
  - left. now left.
  - left. now right.
Qed.

(** X4. PUT /api/negocios/:id changes the data only for a caller whose
    token [jwt.verify] accepts and who is a super admin, or a business
    admin whose [negocio_id] loosely equals the id of the path. *)
Theorem route_put_negocios_id_authorized (now : Z) (req : Request)
  (body : Value) (p p' : Pool) (r : Result Response) :
  route_put_negocios_id now req body p = (p', r) ->
  db p' <> db p ->
  exists t decoded,
    token_of req = Some t
    /\ jwt_verify t JWT_SECRET now = Ok decoded
    /\ (get_property decoded "tipo" = Ok (VStr "super_admin")
        \/ (get_property decoded "tipo" = Ok (VStr "admin_negocio")
            /\ exists v,
                 get_property decoded "negocio_id" = Ok v
                 /\ loosely_equal_string v (params_id req) = Ok true)).
Proof.
  unfold route_put_negocios_id.
  destruct (verifyToken ["admin_negocio"; "super_admin"] now req)
    as [req' [[resp|]|e]] eqn:Hg.
  - intros H. injection H as <- <-. now intros [].
  - destruct (verifyToken_next_inversion _ _ _ _ Hg)
      as (t & decoded & Ht & _ & Hv & Hreq & Hr).
    subst req'.
    destruct (route_put_negocios_id_callers now req _ Hg) as [Hrole _].
    cbn [user set_user] in Hrole.
    intros H Hdb. exists t, decoded. split; [exact Ht|]. split; [exact Hv|].
    destruct (put_negocios_id_cases (set_user decoded req) body p)
      as [[Hc|Hc]|[_ (tipo & Htipo & Hc)]].
    + rewrite Hc in H. injection H as <- <-. now destruct Hdb.
    + rewrite Hc in H. injection H as <- <-. now destruct Hdb.
    + cbn [user set_user params_id] in Htipo, Hc.
      destruct Hrole as [Hrole|Hrole]; [|now left].
      right. split; [exact Hrole|].
      rewrite Hrole in Htipo. injection Htipo as <-.
      destruct Hc as [Hc|Hc]; [discriminate|exact Hc].
  - intros H. injection H as <- <-. now intros [].
Qed.

(** X5. PUT /api/negocios/:id always answers, with status 200, 401, 403 or
    500: neither the middleware nor the handler lets an error escape. *)
Theorem route_put_negocios_id_answers (now : Z) (req : Request)
  (body : Value) (p : Pool) :
  exists p' resp,
    route_put_negocios_id now req body p = (p', Ok resp)
    /\ (status resp = 200 \/ status resp = 401 \/ status resp = 403
        \/ status resp = 500).
Proof.
  unfold route_put_negocios_id.
  destruct (verifyToken_total ["admin_negocio"; "super_admin"] now req)
    as (req' & flow & Hg & Hflow).
  rewrite Hg.
  destruct Hflow as [-> | [-> | [-> | ->]]];
    try (eexists; eexists; split; [reflexivity|cbn; auto]).
  destruct (put_negocios_id_cases req' body p) as [[Hc|Hc]|[Hc _]];
    try (rewrite Hc; eexists; eexists; split; [reflexivity|cbn; auto]).
  rewrite Hc.
  destruct (update_step_status req' body p) as (p' & resp & Hu & [Hs|Hs]);
    rewrite Hu; eexists; eexists; (split; [reflexivity|]); rewrite Hs; auto.
Qed.

(** X6. Guard and handler of PUT /api/negocios/:id together: for a
    request whose token [jwt.verify] accepts, a business admin of business
    [n] reaches the update exactly when the path holds the decimal text of
    [n] and is answered 403 [Sin permisos para este negocio] for any other
    id, a super admin always reaches the update, and any other role is
    answered 403 [Acceso denegado] by the middleware without the pool being
    used. *)
Theorem route_put_negocios_id_decision (now : Z) (req : Request)
  (body : Value) (p : Pool) (t : string) (decoded : Value) :
  token_of req = Some t -> t <> "" ->
  jwt_verify t JWT_SECRET now = Ok decoded ->
  (forall n m,
      is_business_admin decoded (VNum (of_Z n)) ->
      safe_integer n -> safe_integer m ->
      params_id req = decimal_string m ->
      (n = m ->
       route_put_negocios_id now req body p
       = update_step (set_user decoded req) body p)
      /\ (n <> m ->
          route_put_negocios_id now req body p = (p, Ok not_your_business)))
  /\ (is_super_admin decoded ->
      route_put_negocios_id now req body p
      = update_step (set_user decoded req) body p)
  /\ (forall tipo,
        get_property decoded "tipo" = Ok tipo ->
        includes ["admin_negocio"; "super_admin"] tipo = false ->
        route_put_negocios_id now req body p = (p, Ok access_denied)).
Proof.
  intros Ht Hne Hv.
  assert (Hguard : forall tipo,
             get_property decoded "tipo" = Ok tipo ->
             verifyToken ["admin_negocio"; "super_admin"] now req
             = (set_user decoded req,
                Ok (if includes ["admin_negocio"; "super_admin"] tipo
                    then Next else Respond access_denied))).
  { intros tipo Hp.
    apply (verifyToken_restricted _ now req t decoded tipo); auto.
    discriminate. }
  split; [|split].
  - intros n m [Htipo Hid] Hn Hm Hpath.
    unfold route_put_negocios_id. rewrite (Hguard _ Htipo).
    cbn [includes existsb strict_equal_string String.eqb Ascii.eqb Bool.eqb
         orb].
    pose proof (put_negocios_id_admin (set_user decoded req) body p
                  (VNum (of_Z n)) (number_equal (of_Z n) (of_Z m))) as H.
    cbn [user set_user params_id] in H. rewrite Hpath in H.
    cbn [loosely_equal_string] in H.
    rewrite StringToNumber_decimal_string in H.
    specialize (H (conj Htipo Hid) eq_refl).
    pose proof (of_Z_equal_iff n m Hn Hm) as Heq.
    destruct (number_equal (of_Z n) (of_Z m)).
    + split; [intros _; exact H|]. intros Hnm.
      now destruct Hnm; apply Heq.
    + split; [|intros _; exact H]. intros Hnm. apply Heq in Hnm.
      discriminate.
  - intros Hs. unfold is_super_admin in Hs.
    unfold route_put_negocios_id. rewrite (Hguard _ Hs).
    cbn [includes existsb strict_equal_string String.eqb Ascii.eqb Bool.eqb
         orb].
    now apply (put_negocios_id_other _ body p (VStr "super_admin")).
  - intros tipo Hp Hi. unfold route_put_negocios_id.
    now rewrite (Hguard _ Hp), Hi.
Qed.

End GuardMore.

(* ===================================================================== *)
(** * More on login and registration *)
(* ===================================================================== *)

Section AuthenticatorMore.

Context {E : Environment}.

Lemma forget_touch_turistas (id now : Z) (rows : list Turista.row) :
  map forget_turista
    (map (fun r => if (Turista.id r =? id)%Z then Turista.touch now r else r)
         rows)
  = map forget_turista rows.
Proof.
  induction rows as [|r rows IH]; [reflexivity|].
  cbn [map]. rewrite IH. now destruct (Turista.id r =? id)%Z.
Qed.

Lemma forget_touch_administradores (id now : Z)
  (rows : list AdminNegocio.row) :
  map forget_administrador
    (map (fun r => if (AdminNegocio.id r =? id)%Z
                   then AdminNegocio.touch now r else r) rows)
  = map forget_administrador rows.
Proof.
  induction rows as [|r rows IH]; [reflexivity|].
  cbn [map]. rewrite IH. now destruct (AdminNegocio.id r =? id)%Z.
Qed.

Lemma forget_touch_super_administradores (id now : Z)
  (rows : list SuperAdmin.row) :
  map forget_super_administrador
    (map (fun r => if (SuperAdmin.id r =? id)%Z
                   then SuperAdmin.touch now r else r) rows)
  = map forget_super_administrador rows.
Proof.
  induction rows as [|r rows IH]; [reflexivity|].
  cbn [map]. rewrite IH. now destruct (SuperAdmin.id r =? id)%Z.
Qed.

(** One statement: the connection fails, or the statement runs. *)
Lemma execute_cases {A : Type} (stmt : Database -> Result (Database * A))
  (p : Pool) :
  execute stmt p = (spent p, Throw (DriverError "ECONNREFUSED"))
  \/ execute stmt p
     = match stmt (db p) with
       | Ok (d, a) => (advanced d p, Ok a)
       | Throw e => (spent p, Throw e)
       end.
Proof.
  unfold execute, spent, advanced.
  destruct (faults p) as [|[] later]; auto.
Qed.

(** The outcomes of the tourist login, with the pool each one leaves. *)
Lemma auth_turista_login_cases (email password : string) (now : Z)
  (p : Pool) :
  (exists r, auth_turista_login email password now p = (spent p, Ok r)
             /\ (r = invalid_credentials \/ r = inactive_account
                 \/ r = internal_error))
  \/ auth_turista_login email password now p
     = (spent (spent p), Ok internal_error)
  \/ exists user rest,
       select_turistas email (db p) = Ok (db p, user :: rest)
       /\ Turista.estado user = "activo"
       /\ bcrypt_compare password (Turista.password_hash user) = true
       /\ exists d,
            touch_turista (Turista.id user) now (db p) = Ok (d, tt)
            /\ auth_turista_login email password now p
               = (advanced d (spent p),
                  Ok (login_ok (turista_token user now)
                        (turista_profile user))).
Proof.
  unfold auth_turista_login, try_catch, bind; cbv beta iota.
  destruct (execute_cases (select_turistas email) p) as [->| ->].
  { left. exists internal_error. auto. }
  cbn [select_turistas].
  destruct (filter _ (turistas (db p))) as [|user rest] eqn:Hrows.
  { left. exists invalid_credentials. auto. }
  change (advanced (db p) p) with (spent p).
  destruct (String.eqb_spec (Turista.estado user) "activo") as [He|He];
    cbn [negb].
  2:{ left. exists inactive_account. auto. }
  destruct (bcrypt_compare password (Turista.password_hash user)) eqn:Hc;
    cbn [negb].
  2:{ left. exists invalid_credentials. auto. }
  destruct (execute_cases (touch_turista (Turista.id user) now) (spent p))
    as [->| ->].
  { right. now left. }
  right. right. exists user, rest.
  split; [unfold select_turistas; now rewrite Hrows|].
  repeat split; auto. eexists. split; reflexivity.
Qed.

Lemma auth_admin_login_cases (email password : string) (now : Z) (p : Pool) :
  (exists r, auth_admin_login email password now p = (spent p, Ok r)
             /\ (r = invalid_credentials \/ r = inactive_account
                 \/ r = internal_error))
  \/ auth_admin_login email password now p
     = (spent (spent p), Ok internal_error)
  \/ exists user nombre_negocio rest,
       select_administradores email (db p)
       = Ok (db p, (user, nombre_negocio) :: rest)
       /\ AdminNegocio.estado user = "activo"
       /\ bcrypt_compare password (AdminNegocio.password_hash user) = true
       /\ exists d,
            touch_administrador (AdminNegocio.id user) now (db p) = Ok (d, tt)
            /\ auth_admin_login email password now p
               = (advanced d (spent p),
                  Ok (login_ok (admin_token user now)
                        (admin_profile user nombre_negocio))).
Proof.
  unfold auth_admin_login, try_catch, bind; cbv beta iota.
  destruct (execute_cases (select_administradores email) p) as [->| ->].
  { left. exists internal_error. auto. }
  cbn [select_administradores].
  destruct (flat_map _ _) as [|[user nombre_negocio] rest] eqn:Hrows.
  { left. exists invalid_credentials. auto. }
  change (advanced (db p) p) with (spent p).
  destruct (String.eqb_spec (AdminNegocio.estado user) "activo") as [He|He];
    cbn [negb].
  2:{ left. exists inactive_account. auto. }
  destruct (bcrypt_compare password (AdminNegocio.password_hash user)) eqn:Hc;
    cbn [negb].
  2:{ left. exists invalid_credentials. auto. }
  destruct (execute_cases (touch_administrador (AdminNegocio.id user) now)
              (spent p)) as [->| ->].
  { right. now left. }
  right. right. exists user, nombre_negocio, rest.
  split; [unfold select_administradores; now rewrite Hrows|].
  repeat split; auto. eexists. split; reflexivity.
Qed.

Lemma auth_super_admin_login_cases (usuario password : string) (now : Z)
  (p : Pool) :
  (exists r, auth_super_admin_login usuario password now p = (spent p, Ok r)
             /\ (r = invalid_credentials \/ r = internal_error))
  \/ auth_super_admin_login usuario password now p
     = (spent (spent p), Ok internal_error)
  \/ exists user rest,
       select_super_administradores usuario (db p) = Ok (db p, user :: rest)
       /\ bcrypt_compare password (SuperAdmin.password_hash user) = true
       /\ exists d,
            touch_super_administrador (SuperAdmin.id user) now (db p)
            = Ok (d, tt)
            /\ auth_super_admin_login usuario password now p
               = (advanced d (spent p),
                  Ok (login_ok (super_token user now) (super_profile user))).
Proof.
  unfold auth_super_admin_login, try_catch, bind; cbv beta iota.
  destruct (execute_cases (select_super_administradores usuario) p)
    as [->| ->].
  { left. exists internal_error. auto. }
  cbn [select_super_administradores].
  destruct (filter _ (super_administradores (db p))) as [|user rest]
    eqn:Hrows.
  { left. exists invalid_credentials. auto. }
  change (advanced (db p) p) with (spent p).
  destruct (bcrypt_compare password (SuperAdmin.password_hash user)) eqn:Hc;
    cbn [negb].
  2:{ left. exists invalid_credentials. auto. }
  destruct (execute_cases (touch_super_administrador (SuperAdmin.id user) now)
              (spent p)) as [->| ->].
  { right. now left. }
  right. right. exists user, rest.
  split; [unfold select_super_administradores; now rewrite Hrows|].
  repeat split; auto. eexists. split; reflexivity.
Qed.

(** X7. The three logins always answer, with status 200, 401 or 500: no
    error of the store escapes a handler. *)
Theorem login_always_answers (identifier password : string) (now : Z)
  (p : Pool) :
  (exists r, snd (auth_turista_login identifier password now p) = Ok r
             /\ (status r = 200 \/ status r = 401 \/ status r = 500))
  /\ (exists r, snd (auth_admin_login identifier password now p) = Ok r
                /\ (status r = 200 \/ status r = 401 \/ status r = 500))
  /\ (exists r, snd (auth_super_admin_login identifier password now p) = Ok r
                /\ (status r = 200 \/ status r = 401 \/ status r = 500)).
Proof.
  split; [|split].
  - destruct (auth_turista_login_cases identifier password now p)
      as [(r & -> & Hr)|[->|(user & rest & _ & _ & _ & d & _ & ->)]].
    + exists r. split; [reflexivity|].
      destruct Hr as [->|[->| ->]]; cbn; auto.
    + eexists. split; [reflexivity|]. cbn; auto.
    + eexists. split; [reflexivity|]. cbn; auto.
  - destruct (auth_admin_login_cases identifier password now p)
      as [(r & -> & Hr)|[->|(user & nn & rest & _ & _ & _ & d & _ & ->)]].
    + exists r. split; [reflexivity|].
      destruct Hr as [->|[->| ->]]; cbn; auto.
    + eexists. split; [reflexivity|]. cbn; auto.
    + eexists. split; [reflexivity|]. cbn; auto.
  - destruct (auth_super_admin_login_cases identifier password now p)
      as [(r & -> & Hr)|[->|(user & rest & _ & _ & d & _ & ->)]].
    + exists r. split; [reflexivity|].
      destruct Hr as [->| ->]; cbn; auto.
    + eexists. split; [reflexivity|]. cbn; auto.
    + eexists. split; [reflexivity|]. cbn; auto.
Qed.

(** X8. A login that is not answered 200 leaves the data as it was. *)
Theorem failed_login_changes_nothing (identifier password : string) (now : Z)
  (p : Pool) :
  (forall p' r,
      auth_turista_login identifier password now p = (p', Ok r) ->
      status r <> 200 -> db p' = db p)
  /\ (forall p' r,
        auth_admin_login identifier password now p = (p', Ok r) ->
        status r <> 200 -> db p' = db p)
  /\ (forall p' r,
        auth_super_admin_login identifier password now p = (p', Ok r) ->
        status r <> 200 -> db p' = db p).
Proof.
  split; [|split]; intros p' r.
  - destruct (auth_turista_login_cases identifier password now p)
      as [(r0 & -> & _)|[->|(user & rest & _ & _ & _ & d & _ & ->)]];
      intros H; injection H as <- <-; try reflexivity.
    intros Hs. now destruct Hs.
  - destruct (auth_admin_login_cases identifier password now p)
      as [(r0 & -> & _)|[->|(user & nn & rest & _ & _ & _ & d & _ & ->)]];
      intros H; injection H as <- <-; try reflexivity.
    intros Hs. now destruct Hs.
  - destruct (auth_super_admin_login_cases identifier password now p)
      as [(r0 & -> & _)|[->|(user & rest & _ & _ & d & _ & ->)]];
      intros H; injection H as <- <-; try reflexivity.
    intros Hs. now destruct Hs.
Qed.

(** X9. Whatever its outcome, a login changes nothing but last
    connections: ids, emails, password hashes, statuses, the businesses
    and the id counter are as before. *)
Theorem login_keeps_credentials (identifier password : string) (now : Z)
  (p : Pool) :
  forget_connections (db (fst (auth_turista_login identifier password now p)))
  = forget_connections (db p)
  /\ forget_connections
       (db (fst (auth_admin_login identifier password now p)))
     = forget_connections (db p)
  /\ forget_connections
       (db (fst (auth_super_admin_login identifier password now p)))
     = forget_connections (db p).
Proof.
  split; [|split].
  - destruct (auth_turista_login_cases identifier password now p)
      as [(r0 & -> & _)|[->|(user & rest & _ & _ & _ & d & Hd & ->)]];
      try reflexivity.
    unfold touch_turista in Hd. injection Hd as <-.
    unfold forget_connections. cbn.
    now rewrite forget_touch_turistas.
  - destruct (auth_admin_login_cases identifier password now p)
      as [(r0 & -> & _)|[->|(user & nn & rest & _ & _ & _ & d & Hd & ->)]];
      try reflexivity.
    unfold touch_administrador in Hd. injection Hd as <-.
    unfold forget_connections. cbn.
    now rewrite forget_touch_administradores.
  - destruct (auth_super_admin_login_cases identifier password now p)
      as [(r0 & -> & _)|[->|(user & rest & _ & _ & d & Hd & ->)]];
      try reflexivity.
    unfold touch_super_administrador in Hd. injection Hd as <-.
    unfold forget_connections. cbn.
    now rewrite forget_touch_super_administradores.
Qed.

End AuthenticatorMore.

Section RegistrationMore.

Context {E : Environment}.

Lemma no_match_filter (email : string) (rows : list Turista.row) :
  existsb (fun r => sql_text_eqb (Turista.email r) email) rows = false ->
  filter (fun r => sql_text_eqb (Turista.email r) email) rows = [].
Proof.
  induction rows as [|r rows IH]; [reflexivity|].
  cbn [existsb filter].
  destruct (sql_text_eqb (Turista.email r) email); [discriminate|].
  exact IH.
Qed.

(** The outcomes of a registration, with the pool each one leaves. *)
Lemma auth_turista_register_cases (nombre apellido email password : string)
  (telefono pais_origen ciudad_origen : Bind) (salt : string) (p : Pool) :
  (exists r,
      auth_turista_register nombre apellido email password telefono
        pais_origen ciudad_origen salt p = (spent p, Ok r)
      /\ (r = internal_error \/ r = email_taken))
  \/ auth_turista_register nombre apellido email password telefono
       pais_origen ciudad_origen salt p
     = (spent (spent p), Ok internal_error)
  \/ (existsb (fun r => sql_text_eqb (Turista.email r) email)
        (turistas (db p)) = false
      /\ exists d insertId,
           insert_turista nombre apellido email (bcrypt_hash password 10 salt)
             telefono pais_origen ciudad_origen (db p) = Ok (d, insertId)
           /\ auth_turista_register nombre apellido email password telefono
                pais_origen ciudad_origen salt p
              = (advanced d (spent p), Ok (created insertId))).
Proof.
  unfold auth_turista_register, try_catch, bind; cbv beta iota.
  destruct (execute_cases (select_turistas email) p) as [->| ->].
  { left. exists internal_error. auto. }
  cbn [select_turistas]. rewrite <- existing_email.
  destruct (existsb _ (turistas (db p))) eqn:Hex.
  { left. exists email_taken. auto. }
  change (advanced (db p) p) with (spent p).
  destruct (execute_cases
              (insert_turista nombre apellido email
                 (bcrypt_hash password 10 salt) telefono pais_origen
                 ciudad_origen) (spent p)) as [->| ->].
  { right. now left. }
  cbn [db spent].
  destruct (insert_turista nombre apellido email
              (bcrypt_hash password 10 salt) telefono pais_origen
              ciudad_origen (db p)) as [[d insertId]|e] eqn:Hins.
  - right. right. split; [reflexivity|]. exists d, insertId. auto.
  - right. now left.
Qed.


(** X10. A registration always answers, with status 201, 400 or 500, and
    unless it answers 201 the data is as it was. *)
Theorem register_always_answers (nombre apellido email password : string)
  (telefono pais_origen ciudad_origen : Bind) (salt : string) (p : Pool) :
  exists p' r,
    auth_turista_register nombre apellido email password telefono pais_origen
      ciudad_origen salt p = (p', Ok r)
    /\ (status r = 201 \/ status r = 400 \/ status r = 500)
    /\ (status r <> 201 -> db p' = db p).
Proof.
  destruct (auth_turista_register_cases nombre apellido email password
              telefono pais_origen ciudad_origen salt p)
    as [(r & -> & Hr)|[->|(_ & d & insertId & _ & ->)]].
  - exists (spent p), r. split; [reflexivity|].
    destruct Hr as [->| ->]; cbn; auto.
  - eexists. eexists. split; [reflexivity|]. cbn; auto.
  - eexists. eexists. split; [reflexivity|]. split; [cbn; auto|].
    intros H. now destruct H.
Qed.


(** X12. Registration followed by login: on a connection that does not
    fail, once a tourist is registered with a new email, the login with the
    same email and secret succeeds with a token for the new id, any secret
    the hash comparison rejects is answered [Credenciales inválidas], and
    a second registration with that email is refused and changes
    nothing. *)
Theorem register_then_login (nombre apellido email password : string)
  (telefono pais_origen ciudad_origen : Bind) (salt : string) (now : Z)
  (p : Pool) :
  faults p = [] ->
  existsb (fun r => sql_text_eqb (Turista.email r) email) (turistas (db p))
  = false ->
  is_undefined telefono = false -> is_undefined pais_origen = false ->
  is_undefined ciudad_origen = false ->
  sql_text_eqb email email = true ->
  bcrypt_compare password (bcrypt_hash password 10 salt) = true ->
  exists p1 row,
    auth_turista_register nombre apellido email password telefono pais_origen
      ciudad_origen salt p
    = (p1, Ok (created (turistas_auto_increment (db p))))
    /\ Turista.id row = turistas_auto_increment (db p)
    /\ Turista.email row = email
    /\ snd (auth_turista_login email password now p1)
       = Ok (login_ok (turista_token row now) (turista_profile row))
    /\ (forall wrong,
           bcrypt_compare wrong (bcrypt_hash password 10 salt) = false ->
           auth_turista_login email wrong now p1
           = (p1, Ok invalid_credentials))
    /\ (forall nombre' apellido' password' telefono' pais' ciudad' salt',
           auth_turista_register nombre' apellido' email password' telefono'
             pais' ciudad' salt' p1
           = (p1, Ok email_taken)).
Proof.
  intros Hf Hex Ht Hpa Hci Hrefl Hcmp.
  assert (Hf1 : fails_next p = false) by (unfold fails_next; now rewrite Hf).
  assert (Hf2 : fails_next (spent p) = false)
    by (unfold fails_next, spent; cbn; now rewrite Hf).
  destruct (insert_turista nombre apellido email
              (bcrypt_hash password 10 salt) telefono pais_origen
              ciudad_origen (db p)) as [[d insertId]|e] eqn:Hins.
  2:{ unfold insert_turista in Hins. rewrite Ht, Hpa, Hci, Hex in Hins.
      discriminate. }
  destruct (insert_turista_row _ _ _ _ _ _ _ _ _ _ Hins)
    as (-> & row & Hrows & Hid & Hemail & Hhash & Hestado).
  exists (advanced d (spent p)), row.
  assert (Hp1 : spent (advanced d (spent p)) = advanced d (spent p)).
  { unfold spent, advanced. cbn. now rewrite Hf. }
  assert (Hfp1 : fails_next (advanced d (spent p)) = false).
  { unfold fails_next, advanced, spent. cbn. now rewrite Hf. }
  assert (Hsel : select_turistas email (db (advanced d (spent p)))
                 = Ok (db (advanced d (spent p)), [row])).
  { unfold select_turistas. cbn [db advanced]. rewrite Hrows, filter_app.
    rewrite (no_match_filter _ _ Hex). cbn [filter app].
    now rewrite Hemail, Hrefl. }
  split; [now apply register_fresh|].
  split; [exact Hid|]. split; [exact Hemail|]. split; [|split].
  - destruct (turista_success email password now (advanced d (spent p)) row []
                Hfp1 Hsel Hestado) as (d' & _ & ->).
    + now rewrite Hhash.
    + now rewrite Hp1.
    + reflexivity.
  - intros wrong Hw.
    rewrite <- Hp1 at 2.
    apply (turista_wrong_secret email wrong now _ row []); auto.
    now rewrite Hhash.
  - intros nombre' apellido' password' telefono' pais' ciudad' salt'.
    rewrite <- Hp1 at 2. apply register_duplicate; [exact Hfp1|].
    cbn [db advanced]. rewrite Hrows, existsb_app. cbn [existsb].
    rewrite Hemail, Hrefl. apply orb_true_iff. right. reflexivity.
Qed.

End RegistrationMore.

(* ===================================================================== *)
(** * Arithmetic of the paging parameters *)
(* ===================================================================== *)

Section PagingFacts.

Lemma iter_pos_nat {A : Type} (f : A -> A) (n : positive) (x : A) :
  iter_pos f n x = Nat.iter (Pos.to_nat n) f x.
Proof.
  revert x. induction n as [n IH|n IH|]; intros x; cbn [iter_pos].
  - rewrite !IH, Pos2Nat.inj_xI, Nat.iter_succ_r.
    replace (2 * Pos.to_nat n)%nat with (Pos.to_nat n + Pos.to_nat n)%nat
      by lia.
    now rewrite Nat.iter_add.
  - rewrite !IH, Pos2Nat.inj_xO.
    replace (2 * Pos.to_nat n)%nat with (Pos.to_nat n + Pos.to_nat n)%nat
      by lia.
    now rewrite Nat.iter_add.
  - reflexivity.
Qed.

Lemma shr_trailing_zeros (k : nat) (q : positive) :
  Nat.iter k shr_1
    {| shr_m := Zpos (Nat.iter k xO q); shr_r := false; shr_s := false |}
  = {| shr_m := Zpos q; shr_r := false; shr_s := false |}.
Proof.
  induction k as [|k IH]; [reflexivity|].
  rewrite Nat.iter_succ_r. cbn [Nat.iter shr_1 orb]. exact IH.
Qed.

Lemma shr_shifted (n q : positive) :
  iter_pos shr_1 n
    {| shr_m := Zpos (Pos.iter xO q n); shr_r := false; shr_s := false |}
  = {| shr_m := Zpos q; shr_r := false; shr_s := false |}.
Proof.
  rewrite iter_pos_nat.
  replace (Pos.iter xO q n) with (Nat.iter (Pos.to_nat n) xO q)
    by (now rewrite Pos2Nat.inj_iter).
  apply shr_trailing_zeros.
Qed.

Lemma shift_value (q n : positive) :
  Zpos (Pos.iter xO q n) = Zpos q * 2 ^ Zpos n.
Proof.
  induction n as [|n IH] using Pos.peano_ind.
  - cbn [Pos.iter]. lia.
  - rewrite Pos.iter_succ, Pos2Z.inj_succ, Z.pow_succ_r by lia.
    rewrite Pos2Z.inj_xO, IH. lia.
Qed.

(** A mantissa that is a 53-bit number followed by [n] zero bits is
    rounded to that number, exactly. *)
Lemma binary_round_aux_shifted (s : bool) (m : positive) (e : Z)
  (n : positive) :
  Zpos (digits2_pos m) = 53 -> -1074 <= e + Zpos n <= 971 ->
  binary_round_aux prec emax s (Zpos (Pos.iter xO m n)) e loc_Exact
  = S754_finite s m (e + Zpos n).
Proof.
  intros Hd He.
  assert (Hf : fexp prec emax (Zpos (digits2_pos (Pos.iter xO m n)) + e) - e
               = Zpos n).
  { rewrite digits2_pos_shift, Pos2Z.inj_add, Hd.
    unfold fexp, emin, prec, emax. lia. }
  assert (Hf' : fexp prec emax (Zpos (digits2_pos m) + (e + Zpos n))
                - (e + Zpos n) = 0).
  { rewrite Hd. unfold fexp, emin, prec, emax. lia. }
  unfold binary_round_aux, shr_fexp. simpl Zdigits2. rewrite Hf.
  cbn [shr shr_record_of_loc].
  rewrite shr_shifted.
  cbn [shr_m loc_of_shr_record round_nearest_even Zdigits2].
  rewrite Hf'. cbn [shr shr_record_of_loc shr_m].
  destruct (Z.leb_spec (e + Zpos n) (emax - prec)) as [_|H]; [reflexivity|].
  unfold emax, prec in H. lia.
Qed.

Lemma digits2_pos_spec (p : positive) :
  2 ^ (Zpos (digits2_pos p) - 1) <= Zpos p < 2 ^ Zpos (digits2_pos p).
Proof.
  induction p as [p IH|p IH|]; simpl digits2_pos.
  - rewrite Pos2Z.inj_succ.
    replace (Z.succ (Zpos (digits2_pos p)) - 1)
      with (Z.succ (Zpos (digits2_pos p) - 1)) by lia.
    rewrite !Z.pow_succ_r by lia. lia.
  - rewrite Pos2Z.inj_succ.
    replace (Z.succ (Zpos (digits2_pos p)) - 1)
      with (Z.succ (Zpos (digits2_pos p) - 1)) by lia.
    rewrite !Z.pow_succ_r by lia. lia.
  - simpl. lia.
Qed.

Lemma normal_form_value (p : positive) :
  Zpos (digits2_pos p) <= 53 ->
  Zpos (fst (normal_form p)) = Zpos p * 2 ^ (53 - Zpos (digits2_pos p))
  /\ Zpos (digits2_pos (fst (normal_form p))) = 53.
Proof.
  intros Hd. unfold normal_form, shl_align.
  destruct (Zpos (digits2_pos p) - 53 - 0) as [|k|k] eqn:Hk; try lia;
    cbn [fst].
  - replace (53 - Zpos (digits2_pos p)) with 0 by lia. split; lia.
  - rewrite shift_value, digits2_pos_shift.
    replace (53 - Zpos (digits2_pos p)) with (Zpos k) by lia. split; lia.
Qed.

(** Rounding a mantissa that is the integer [q] followed by [k] zero bits,
    with exponent [-k], gives the number of [q], as soon as the mantissa
    has 53 bits or more. *)
Lemma binary_round_aux_integer (s : bool) (M q : positive) (k : Z) :
  Zpos q < 2 ^ 53 ->
  53 - Zpos (digits2_pos q) <= k -> k <= 1000 ->
  Zpos M = Zpos q * 2 ^ k ->
  binary_round_aux prec emax s (Zpos M) (- k) loc_Exact
  = binary_round prec emax s q 0.
Proof.
  intros Hq Hk Hk' HM.
  pose proof (digits2_pos_bound q Hq) as Hd.
  rewrite (binary_round_small s q Hd).
  destruct (normal_form_value q Hd) as [Hv Hdn].
  set (m := fst (normal_form q)) in *.
  destruct (Z.eq_dec k (53 - Zpos (digits2_pos q))) as [->|Hne].
  - assert (M = m) by lia. subst M.
    replace (- (53 - Zpos (digits2_pos q)))
      with (Zpos (digits2_pos q) - 53) by lia.
    apply binary_round_aux_exact; lia.
  - assert (Hn : 0 < k - (53 - Zpos (digits2_pos q))) by lia.
    destruct (k - (53 - Zpos (digits2_pos q))) as [|n|n] eqn:Hkn; try lia.
    assert (M = Pos.iter xO m n).
    { apply Pos2Z.inj. rewrite shift_value, Hv, HM, <- Hkn.
      rewrite <- Z.mul_assoc, <- Z.pow_add_r by lia. f_equal. f_equal. lia. }
    subst M.
    replace (Zpos (digits2_pos q) - 53) with (- k + Zpos n) by lia.
    apply binary_round_aux_shifted; lia.
Qed.

Lemma of_Z_pos (p : positive) :
  Zpos p < 2 ^ 53 ->
  of_Z (Zpos p)
  = S754_finite false (fst (normal_form p)) (Zpos (digits2_pos p) - 53).
Proof. intros H. apply binary_round_small. now apply digits2_pos_bound. Qed.

Lemma of_Z_neg (p : positive) :
  Zpos p < 2 ^ 53 ->
  of_Z (Zneg p)
  = S754_finite true (fst (normal_form p)) (Zpos (digits2_pos p) - 53).
Proof. intros H. apply binary_round_small. now apply digits2_pos_bound. Qed.

Lemma digits2_pos_mul (a b : positive) :
  Zpos (digits2_pos a) + Zpos (digits2_pos b) - 1
  <= Zpos (digits2_pos (a * b)).
Proof.
  pose proof (digits2_pos_spec a) as [Ha _].
  pose proof (digits2_pos_spec b) as [Hb _].
  pose proof (digits2_pos_spec (a * b)) as [_ Hab].
  destruct (Z.le_gt_cases
              (Zpos (digits2_pos a) + Zpos (digits2_pos b) - 1)
              (Zpos (digits2_pos (a * b)))) as [H|H]; [exact H|].
  assert (Hp : 2 ^ (Zpos (digits2_pos a) - 1) * 2 ^ (Zpos (digits2_pos b) - 1)
               <= Zpos a * Zpos b) by (apply Z.mul_le_mono_nonneg; lia).
  rewrite <- Z.pow_add_r in Hp by lia.
  assert (2 ^ Zpos (digits2_pos (a * b))
          <= 2 ^ (Zpos (digits2_pos a) - 1 + (Zpos (digits2_pos b) - 1)))
    by (apply Z.pow_le_mono_r; lia).
  rewrite Pos2Z.inj_mul in Hab. lia.
Qed.

(** The product of two positive integers whose product is a safe integer
    is computed exactly, whatever the signs. *)
Lemma number_mul_pos (sa sb : bool) (a b : positive) :
  Zpos (a * b) < 2 ^ 53 ->
  SFmul prec emax
    (S754_finite sa (fst (normal_form a)) (Zpos (digits2_pos a) - 53))
    (S754_finite sb (fst (normal_form b)) (Zpos (digits2_pos b) - 53))
  = binary_round prec emax (xorb sa sb) (a * b) 0.
Proof.
  intros Hab.
  assert (Ha : Zpos a < 2 ^ 53) by (rewrite Pos2Z.inj_mul in Hab; nia).
  assert (Hb : Zpos b < 2 ^ 53) by (rewrite Pos2Z.inj_mul in Hab; nia).
  pose proof (digits2_pos_bound a Ha) as Hda.
  pose proof (digits2_pos_bound b Hb) as Hdb.
  destruct (normal_form_value a Hda) as [Hva _].
  destruct (normal_form_value b Hdb) as [Hvb _].
  pose proof (digits2_pos_mul a b) as Hm.
  pose proof (digits2_pos_bound (a * b) Hab) as Hdab.
  cbn [SFmul].
  replace (Zpos (digits2_pos a) - 53 + (Zpos (digits2_pos b) - 53))
    with (- (106 - Zpos (digits2_pos a) - Zpos (digits2_pos b))) by lia.
  apply binary_round_aux_integer; try lia.
  rewrite Pos2Z.inj_mul, Hva, Hvb, Pos2Z.inj_mul.
  replace (106 - Zpos (digits2_pos a) - Zpos (digits2_pos b))
    with ((53 - Zpos (digits2_pos a)) + (53 - Zpos (digits2_pos b))) by lia.
  rewrite Z.pow_add_r by lia. ring.
Qed.

Lemma number_mul_integers (a b : Z) :
  safe_integer a -> safe_integer b -> safe_integer (a * b) ->
  0 <= b -> (a < 0 -> 0 < b) ->
  number_mul (of_Z a) (of_Z b) = of_Z (a * b).
Proof.
  unfold safe_integer, number_mul. intros Ha Hb Hab Hb0 Hneg.
  destruct a as [|a|a], b as [|b|b]; try lia.
  - reflexivity.
  - rewrite (of_Z_pos b) by lia. reflexivity.
  - rewrite (of_Z_pos a) by lia. reflexivity.
  - rewrite (of_Z_pos a), (of_Z_pos b) by lia.
    rewrite number_mul_pos by (cbn in Hab; lia). reflexivity.
  - rewrite (of_Z_neg a), (of_Z_pos b) by lia.
    rewrite number_mul_pos by (cbn in Hab; lia). reflexivity.
Qed.

Lemma number_sub_one (p : Z) :
  0 <= p -> safe_integer p ->
  number_sub (of_Z p) (of_Z 1) = of_Z (p - 1).
Proof.
  unfold safe_integer, number_sub. intros Hp Hs.
  destruct p as [|p|p]; try lia; [reflexivity|].
  destruct (Pos.eq_dec p 1) as [->|Hne]; [reflexivity|].
  assert (Hp2 : 2 <= Zpos p) by lia.
  pose proof (digits2_pos_bound p ltac:(lia)) as Hd.
  pose proof (digits2_pos_spec p) as [_ Hup].
  assert (Hd2 : 2 <= Zpos (digits2_pos p)).
  { destruct (Z.le_gt_cases 2 (Zpos (digits2_pos p))) as [H|H]; [exact H|].
    assert (Zpos (digits2_pos p) = 1) by lia.
    rewrite H0 in Hup. cbn in Hup. lia. }
  destruct (normal_form_value p Hd) as [Hv _].
  rewrite (of_Z_pos p) by lia.
  change (of_Z 1) with (S754_finite false 4503599627370496 (-52)).
  cbn [SFsub]. rewrite Z.min_r by lia.
  unfold shl_align at 1.
  destruct (-52 - (Zpos (digits2_pos p) - 53)) as [|k|k] eqn:Hk; try lia.
  change (shl_align 4503599627370496 (-52) (-52))
    with (4503599627370496%positive, -52).
  cbn [fst cond_Zopp].
  destruct (Zpos (Pos.iter xO (fst (normal_form p)) k)
            - 4503599627370496) as [|M|M] eqn:HM.
  - rewrite shift_value, Hv in HM.
    replace (Zpos k) with (Zpos (digits2_pos p) - 1) in HM by lia.
    rewrite <- Z.mul_assoc, <- Z.pow_add_r in HM by lia.
    replace (53 - Zpos (digits2_pos p) + (Zpos (digits2_pos p) - 1))
      with 52 in HM by lia.
    lia.
  - assert (HMv : Zpos M = (Zpos p - 1) * 2 ^ 52).
    { rewrite <- HM, shift_value, Hv.
      replace (Zpos k) with (Zpos (digits2_pos p) - 1) by lia.
      rewrite <- Z.mul_assoc, <- Z.pow_add_r by lia.
      replace (53 - Zpos (digits2_pos p) + (Zpos (digits2_pos p) - 1))
        with 52 by lia.
      lia. }
    destruct (Zpos p - 1) as [|q|q] eqn:Hq; try lia.
    cbn [binary_normalize]. unfold binary_round.
    pose proof (digits2_pos_spec M) as [_ HMup].
    assert (HdM : 53 <= Zpos (digits2_pos M)).
    { destruct (Z.le_gt_cases 53 (Zpos (digits2_pos M))) as [H|H];
        [exact H|].
      assert (2 ^ Zpos (digits2_pos M) <= 2 ^ 52)
        by (apply Z.pow_le_mono_r; lia).
      lia. }
    assert (Hal : shl_align M (-52)
                    (fexp prec emax (Zpos (digits2_pos M) + -52))
                  = (M, -52)).
    { unfold shl_align, fexp, emin, prec, emax.
      destruct (Z.max (Zpos (digits2_pos M) + -52 - 53) (3 - 1024 - 53)
                - -52) as [|j|j] eqn:Hj; try reflexivity.
      lia. }
    rewrite Hal.
    apply (binary_round_aux_integer false M q 52); lia.
  - rewrite shift_value, Hv in HM.
    replace (Zpos k) with (Zpos (digits2_pos p) - 1) in HM by lia.
    rewrite <- Z.mul_assoc, <- Z.pow_add_r in HM by lia.
    replace (53 - Zpos (digits2_pos p) + (Zpos (digits2_pos p) - 1))
      with 52 in HM by lia.
    lia.
Qed.

End PagingFacts.

(* ===================================================================== *)
(** * The listing of businesses *)
(* ===================================================================== *)

Section Listing.

Lemma digits_value_acc (d : uint) (acc : positive) :
  digits_value (Npos acc) d = Npos (Pos.of_uint_acc d acc).
Proof.
  revert acc. induction d; intros acc; cbn [digits_value Pos.of_uint_acc];
    try reflexivity;
    match goal with
    | |- digits_value ?x _ = Npos (Pos.of_uint_acc _ ?y) =>
        replace x with (Npos y) by lia; apply IHd
    end.
Qed.

Lemma digits_value_of_uint (d : uint) : digits_value 0 d = N.of_uint d.
Proof.
  unfold N.of_uint.
  induction d; cbn [digits_value Pos.of_uint]; try reflexivity;
    try exact IHd; apply digits_value_acc.
Qed.

Lemma radix_digits_decimal (d : uint) (acc : N) (seen : bool) :
  radix_digits 10 acc seen (NilEmpty.string_of_uint d)
  = (if (seen || negb (is_nil d))%bool then Some (digits_value acc d)
     else None, "").
Proof.
  revert acc seen.
  induction d; intros acc seen;
    cbn [NilEmpty.string_of_uint digits_value is_nil negb];
    [destruct seen; reflexivity|..];
    rewrite orb_true_r;
    match goal with
    | |- radix_digits 10 acc seen (String ?c ?r) = _ =>
        change (radix_digits 10 acc seen (String c r))
          with (radix_digits 10 (acc * 10 + (N_of_ascii c - 48)) true r)
    end;
    rewrite IHd; reflexivity.
Qed.

Lemma parseInt_digits (d : uint) :
  d <> Nil ->
  parseInt (NilEmpty.string_of_uint d)
  = match digits_value 0 d with
    | N0 => S754_zero false
    | n => of_Z (Z.of_N n)
    end.
Proof.
  intros Hnil.
  assert (Hr : radix_digits 10 0 false (NilEmpty.string_of_uint d)
               = (Some (digits_value 0 d), "")).
  { rewrite radix_digits_decimal.
    destruct d; [congruence|reflexivity..]. }
  assert (Hskip : skip_ws (NilEmpty.string_of_uint d)
                  = NilEmpty.string_of_uint d).
  { destruct (string_of_uint_head d Hnil) as (c & r & f & Hs & Hc).
    rewrite Hs. exact (skip_ws_digit c r f Hc). }
  assert (Hsign : match NilEmpty.string_of_uint d with
                  | String "+" u => (false, u)
                  | String "-" u => (true, u)
                  | _ => (false, NilEmpty.string_of_uint d)
                  end = (false, NilEmpty.string_of_uint d)).
  { destruct d; reflexivity. }
  assert (Hprefix :
            match NilEmpty.string_of_uint d with
            | String "0" (String x u) =>
                if (Ascii.eqb x "x" || Ascii.eqb x "X")%bool then (16%N, u)
                else (10%N, NilEmpty.string_of_uint d)
            | _ => (10%N, NilEmpty.string_of_uint d)
            end = (10%N, NilEmpty.string_of_uint d)).
  { clear. destruct d as [|d|d|d|d|d|d|d|d|d|d]; try reflexivity.
    destruct d; reflexivity. }
  unfold parseInt. cbv zeta. rewrite Hskip, Hsign, Hprefix, Hr.
  cbn [cond_Zopp]. destruct (digits_value 0 d); reflexivity.
Qed.

(** [parseInt] reads the decimal text of a natural number as that
    number. *)
Lemma parseInt_decimal_string (z : Z) :
  0 <= z -> parseInt (decimal_string z) = of_Z z.
Proof.
  intros Hz. destruct z as [|p|p]; [reflexivity| |lia].
  unfold decimal_string. cbn [Z.to_int NilZero.string_of_int].
  pose proof (DecimalPos.Unsigned.to_uint_nonnil p) as Hnil.
  unfold NilZero.string_of_uint.
  destruct (Pos.to_uint p) eqn:Hd; try congruence;
    rewrite (parseInt_digits _ Hnil), digits_value_of_uint, <- Hd;
    unfold N.of_uint; rewrite DecimalPos.Unsigned.of_to; reflexivity.
Qed.

(** X13. The statement of GET /api/negocios has as many placeholders as
    the handler binds parameters, whatever the query string holds. *)
Theorem negocios_listing_placeholders
  (categoria estado limite pagina : option string) :
  placeholders (fst (negocios_listing categoria estado limite pagina))
  = List.length (snd (negocios_listing categoria estado limite pagina)).
Proof.
  unfold negocios_listing.
  destruct (truthy_field categoria), (truthy_field estado); reflexivity.
Qed.

(** X14. No text of the query string ever enters the statement of
    GET /api/negocios: the statement depends only on which of the two
    filters are present, and the texts travel as bind parameters. *)
Theorem negocios_listing_text_fixed
  (categoria estado limite pagina categoria' estado' limite' pagina'
     : option string) :
  truthy_field categoria = truthy_field categoria' ->
  truthy_field estado = truthy_field estado' ->
  fst (negocios_listing categoria estado limite pagina)
  = fst (negocios_listing categoria' estado' limite' pagina')
  /\ firstn (List.length (filter_params categoria estado))
       (snd (negocios_listing categoria estado limite pagina))
     = filter_params categoria estado.
Proof.
  intros Hc He. unfold negocios_listing, filter_params.
  rewrite <- Hc, <- He.
  destruct (truthy_field categoria), (truthy_field estado);
    split; reflexivity.
Qed.

(** X15. Paging of GET /api/negocios: with a limit [l] and a page [p]
    written in decimal, or left out (the limit is then 50 and the page 1),
    the statement is bound LIMIT [l] OFFSET [(p - 1) * l]; page 0 gives the
    negative offset [- l]. *)
Theorem negocios_listing_paging (categoria estado : option string)
  (limite pagina : option Z) :
  let l := or_default 50 limite in
  let p := or_default 1 pagina in
  0 <= l -> 0 <= p -> (p = 0 -> 0 < l) ->
  safe_integer l -> safe_integer p -> safe_integer ((p - 1) * l) ->
  snd (negocios_listing categoria estado (decimal_field limite)
         (decimal_field pagina))
  = (filter_params categoria estado
     ++ [PNumber (of_Z l); PNumber (of_Z ((p - 1) * l))])%list.
Proof.
  intros l p Hl Hp Hp0 Hsl Hsp Hs.
  assert (Hlim : parseInt (match decimal_field limite with
                           | Some s => s
                           | None => "50"
                           end) = of_Z l).
  { subst l. destruct limite as [v|]; [|reflexivity].
    now apply parseInt_decimal_string. }
  assert (Hpag : parseInt (match decimal_field pagina with
                           | Some s => s
                           | None => "1"
                           end) = of_Z p).
  { subst p. destruct pagina as [v|]; [|reflexivity].
    now apply parseInt_decimal_string. }
  unfold negocios_listing, filter_params. rewrite Hlim, Hpag.
  rewrite (number_sub_one p Hp Hsp).
  rewrite (number_mul_integers (p - 1) l); try assumption.
  - destruct (truthy_field categoria), (truthy_field estado); reflexivity.
  - unfold safe_integer in *. lia.
  - intros Hneg. apply Hp0. lia.
Qed.

End Listing.

(* ===================================================================== *)
(** * Concrete runs of the further properties *)
(* ===================================================================== *)

(** X1 on a bearer header. *)
Lemma token_of_shape_witness :
  has_space "tok-turista" = false
  /\ ("tok-turista" = "" ->
      snd (verifyToken (E := Sample.environment) [] 0
             (Sample.request (Some "Bearer tok-turista") "" VUndefined))
      = Ok (Respond no_token)).
Proof.
  apply (token_of_shape (E := Sample.environment)
           (Sample.request (Some "Bearer tok-turista") "" VUndefined)
           "tok-turista" [] 0).
  reflexivity.
Defined.

(** X2 on a tourist token let through by the roles of a tourist route. *)
Lemma verifyToken_next_iff_witness :
  exists t decoded,
    token_of (Sample.request (Some "Bearer tok-turista") "" VUndefined)
    = Some t
    /\ t <> ""
    /\ jwt_verify (Environment := Sample.environment) t
         (JWT_SECRET (E := Sample.environment)) 0 = Ok decoded
    /\ Sample.request (Some "Bearer tok-turista") "" Sample.turista_claims
       = set_user decoded
           (Sample.request (Some "Bearer tok-turista") "" VUndefined)
    /\ (["turista"] = []
        \/ exists tipo, get_property decoded "tipo" = Ok tipo
                        /\ includes ["turista"] tipo = true).
Proof.
  apply (proj1 (verifyToken_next_iff (E := Sample.environment) ["turista"] 0
                  (Sample.request (Some "Bearer tok-turista") "" VUndefined)
                  (Sample.request (Some "Bearer tok-turista") ""
                     Sample.turista_claims))).
  reflexivity.
Defined.

(** X4 on the admin of business 5 renaming business 5. *)
Lemma route_put_negocios_id_authorized_witness :
  exists t decoded,
    token_of (Sample.request (Some "Bearer tok-admin_negocio") "5" VUndefined)
    = Some t
    /\ jwt_verify (Environment := Sample.environment) t
         (JWT_SECRET (E := Sample.environment)) 0 = Ok decoded
    /\ (get_property decoded "tipo" = Ok (VStr "super_admin")
        \/ (get_property decoded "tipo" = Ok (VStr "admin_negocio")
            /\ exists v,
                 get_property decoded "negocio_id" = Ok v
                 /\ loosely_equal_string v "5" = Ok true)).
Proof.
  refine (route_put_negocios_id_authorized (E := Sample.environment) 0
            (Sample.request (Some "Bearer tok-admin_negocio") "5" VUndefined)
            (Sample.rename_body "Bar") Sample.pool _ _ eq_refl _).
  intros H. apply (f_equal negocios) in H. vm_compute in H. discriminate H.
Defined.

(** X6 on the scenario of the specification, through the whole route. *)
Lemma route_put_negocios_id_decision_witness :
  route_put_negocios_id (E := Sample.environment) 0
    (Sample.request (Some "Bearer tok-admin_negocio") (decimal_string 6)
       VUndefined) VNull Sample.pool
  = (Sample.pool, Ok not_your_business)
  /\ route_put_negocios_id (E := Sample.environment) 0
       (Sample.request (Some "Bearer tok-turista") (decimal_string 6)
          VUndefined) VNull Sample.pool
     = (Sample.pool, Ok access_denied).
Proof.
  split.
  - destruct (route_put_negocios_id_decision (E := Sample.environment) 0
                (Sample.request (Some "Bearer tok-admin_negocio")
                   (decimal_string 6) VUndefined) VNull Sample.pool
                "tok-admin_negocio" Sample.admin_claims eq_refl
                ltac:(discriminate) eq_refl) as (H & _).
    apply (H 5 6); try reflexivity; try discriminate.
    split; reflexivity.
  - destruct (route_put_negocios_id_decision (E := Sample.environment) 0
                (Sample.request (Some "Bearer tok-turista")
                   (decimal_string 6) VUndefined) VNull Sample.pool
                "tok-turista" Sample.turista_claims eq_refl
                ltac:(discriminate) eq_refl) as (_ & _ & H).
    apply (H (VStr "turista")); reflexivity.
Defined.

(** X8 on a wrong secret. *)
Lemma failed_login_changes_nothing_witness :
  db (fst (auth_turista_login (E := Sample.environment) "a@x.com" "wrongpass"
             0 Sample.pool))
  = db Sample.pool.
Proof.
  destruct (failed_login_changes_nothing (E := Sample.environment) "a@x.com"
              "wrongpass" 0 Sample.pool) as (H & _).
  apply (H _ invalid_credentials); [reflexivity|discriminate].
Defined.


(** X12 on the scenario of the specification: register, then log in with
    the right and with a wrong secret, then register again. *)
Lemma register_then_login_witness :
  exists p1 row,
    auth_turista_register (E := Sample.environment) "Nora" "Gil" "n@x.com"
      "secret9" BNull BNull BNull "s" Sample.pool
    = (p1, Ok (created 3))
    /\ Turista.id row = 3
    /\ snd (auth_turista_login (E := Sample.environment) "n@x.com" "secret9"
              100 p1)
       = Ok (login_ok "tok-turista" (turista_profile row))
    /\ auth_turista_login (E := Sample.environment) "n@x.com" "wrongpass"
         100 p1
       = (p1, Ok invalid_credentials)
    /\ auth_turista_register (E := Sample.environment) "Otra" "Vez" "n@x.com"
         "secret0" BNull BNull BNull "t" p1
       = (p1, Ok email_taken).
Proof.
  destruct (register_then_login (E := Sample.environment) "Nora" "Gil"
              "n@x.com" "secret9" BNull BNull BNull "s" 100 Sample.pool
              eq_refl eq_refl eq_refl eq_refl eq_refl eq_refl eq_refl)
    as (p1 & row & H1 & H2 & _ & H4 & H5 & H6).
  exists p1, row. split; [exact H1|]. split; [exact H2|].
  split; [exact H4|]. split; [apply H5; reflexivity|apply H6].
Defined.

(** X14 on two query strings with the same filters present. *)
Lemma negocios_listing_text_fixed_witness :
  fst (negocios_listing (Some "hotel") None (Some "10") (Some "2"))
  = fst (negocios_listing (Some "x' OR '1'='1") (Some "") None None)
  /\ firstn (List.length (filter_params (Some "hotel") None))
       (snd (negocios_listing (Some "hotel") None (Some "10") (Some "2")))
     = filter_params (Some "hotel") None.
Proof.
  apply negocios_listing_text_fixed; reflexivity.
Defined.

(** X15 on the third page of ten, and on page 0. *)
Lemma negocios_listing_paging_witness :
  snd (negocios_listing (Some "hotel") None (Some "10") (Some "3"))
  = [PText "hotel"; PNumber (of_Z 10); PNumber (of_Z 20)]
  /\ snd (negocios_listing None None (Some "10") (Some "0"))
     = [PNumber (of_Z 10); PNumber (of_Z (-10))].
Proof.
  assert (Hs : forall z, Z.abs z < 2 ^ 53 -> safe_integer z)
    by (intros z H; exact H).
  split.
  - apply (negocios_listing_paging (Some "hotel") None (Some 10) (Some 3));
      try (apply Hs; vm_compute; reflexivity); cbn; lia.
  - apply (negocios_listing_paging None None (Some 10) (Some 0));
      try (apply Hs; vm_compute; reflexivity); cbn; lia.
Defined.
